(** * Percent-replicating / percent-matching utilities (notebooks/utils.py)

    A shallow embedding of [notebooks/utils.py] and the properties of it that
    the design document states.

    Conventions of the embedding:
    - a pandas [DataFrame] is a record of column labels, row labels and a
      row-major list of cells; a cell is a string or a binary64 number
      (a missing value is the number NaN, as pandas stores it);
    - numpy arrays of floats are scalars, lists (1-D) or [matrix] records
      (2-D) of Rocq's primitive binary64 floats, so every arithmetic step
      is the IEEE-754 operation the interpreter performs.  Sums and inner
      products are accumulated left to right; numpy's pairwise summation
      and the BLAS kernels may associate long sums differently, which no
      statement below depends on;
    - numpy, pandas and scikit-learn routines are modelled after their
      documented algorithms ([np.cov], [np.corrcoef], [np.nanmedian],
      [np.nanpercentile] with linear interpolation, pandas' [nancorr]
      with its clipping to [-1, 1], [check_array]); [scipy.linalg.svd] and
      [kneed.KneeLocator] are parameters;
    - a Python exception is the [Raise] case of [result];
    - the global random generator is a tape of 53-bit integers, one per call
      of [random.random()], threaded as a position on the tape. *)

From Stdlib Require Import String Ascii.
From Stdlib Require Import List Bool ZArith Lia Floats Permutation.
From Stdlib Require Uint63.
Import ListNotations.

Set Warnings "-inexact-float".
Local Open Scope string_scope.
Local Open Scope list_scope.

(** ** Exceptions *)

Inductive exn : Type :=
| KeyError
| IndexError
| ValueError
| NotFittedError
| AttributeError
| AssertionError
| TypeError
| LinAlgError
| UndefinedVariableError.

Inductive result (A : Type) : Type :=
| Ok (a : A)
| Raise (e : exn).

Arguments Ok {A} a.
Arguments Raise {A} e.

Definition bind {A B : Type} (r : result A) (k : A -> result B) : result B :=
  match r with
  | Ok a => k a
  | Raise e => Raise e
  end.

Notation "x <- r ;; k" := (bind r (fun x => k))
  (at level 61, r at next level, right associativity).

Fixpoint mapM {A B : Type} (f : A -> result B) (l : list A) : result (list B) :=
  match l with
  | [] => Ok []
  | a :: l' => b <- f a ;; bs <- mapM f l' ;; Ok (b :: bs)
  end.

(** ** Tables *)

Module Pandas.

(** A cell of a table: text, or a binary64 number.  pandas represents a
    missing entry of any column by the number NaN. *)
Inductive cell : Type :=
| Str (s : string)
| Num (x : float).

Record DataFrame : Type := mkDF
  { columns : list string;
    index : list Z;
    values : list (list cell) }.

(** Every row has one cell per column and one label. *)
Definition wf (df : DataFrame) : Prop :=
  NoDup (columns df) /\
  length (index df) = length (values df) /\
  Forall (fun r => length r = length (columns df)) (values df).

Definition shape (df : DataFrame) : nat * nat :=
  (length (values df), length (columns df)).

Definition len (df : DataFrame) : nat := length (values df).

(** [pd.isna] on one cell. *)
Definition isna (c : cell) : bool :=
  match c with
  | Str _ => false
  | Num x => is_nan x
  end.

(** Elementwise [==] of a column against a value. *)
Definition cell_eqb (a b : cell) : bool :=
  match a, b with
  | Str s, Str t => String.eqb s t
  | Num x, Num y => PrimFloat.eqb x y
  | _, _ => false
  end.

(** Equality of the hash table behind [unique] and [groupby]: as [==],
    and all NaN are one value. *)
Definition cell_same (a b : cell) : bool :=
  match a, b with
  | Str s, Str t => String.eqb s t
  | Num x, Num y => (is_nan x && is_nan y) || PrimFloat.eqb x y
  | _, _ => false
  end.

(** Position of the first column carrying a label. *)
Fixpoint get_loc (c : string) (cols : list string) : option nat :=
  match cols with
  | [] => None
  | c' :: cols' =>
      if String.eqb c c' then Some 0
      else option_map S (get_loc c cols')
  end.

Definition cell_at (j : nat) (row : list cell) : cell :=
  nth j row (Num nan).

(** [df[c]] for one label: the column as a list, [KeyError] when absent. *)
Definition getitem (df : DataFrame) (c : string) : result (list cell) :=
  match get_loc c (columns df) with
  | Some j => Ok (map (cell_at j) (values df))
  | None => Raise KeyError
  end.

(** [df[cols]] for a list of labels, on a table whose column labels are
    distinct (pandas returns every column that carries a repeated
    label). *)
Definition getitems (df : DataFrame) (cols : list string) : result DataFrame :=
  js <- mapM (fun c => match get_loc c (columns df) with
                       | Some j => Ok j
                       | None => Raise KeyError
                       end) cols ;;
  Ok {| columns := cols;
        index := index df;
        values := map (fun row => map (fun j => cell_at j row) js) (values df) |}.

(** Rows selected by a boolean mask over the rows, labels kept. *)
Fixpoint mask_filter {A : Type} (mask : list bool) (l : list A) : list A :=
  match mask, l with
  | b :: mask', a :: l' =>
      if b then a :: mask_filter mask' l' else mask_filter mask' l'
  | _, _ => []
  end.

Definition loc_mask (df : DataFrame) (mask : list bool) : DataFrame :=
  {| columns := columns df;
     index := mask_filter mask (index df);
     values := mask_filter mask (values df) |}.

(** [range(n)] as row labels. *)
Definition RangeIndex (n : nat) : list Z := map Z.of_nat (seq 0 n).

Definition reset_index_drop (df : DataFrame) : DataFrame :=
  {| columns := columns df;
     index := RangeIndex (length (values df));
     values := values df |}.

(** [df.query('col != "s"')] and [df.query('col == "s"')]: the column must
    exist; the comparison is elementwise against the string. *)
Definition query_ne (df : DataFrame) (col s : string) : result DataFrame :=
  match get_loc col (columns df) with
  | Some j =>
      Ok (loc_mask df (map (fun r => negb (cell_eqb (cell_at j r) (Str s))) (values df)))
  | None => Raise UndefinedVariableError
  end.

Definition query_eq (df : DataFrame) (col s : string) : result DataFrame :=
  match get_loc col (columns df) with
  | Some j =>
      Ok (loc_mask df (map (fun r => cell_eqb (cell_at j r) (Str s)) (values df)))
  | None => Raise UndefinedVariableError
  end.

(** [df.dropna(subset=[col])]. *)
Definition dropna_subset (df : DataFrame) (col : string) : result DataFrame :=
  match get_loc col (columns df) with
  | Some j =>
      Ok (loc_mask df (map (fun r => negb (isna (cell_at j r))) (values df)))
  | None => Raise KeyError
  end.

(** [Series.unique()]: the distinct values in order of first appearance. *)
Fixpoint unique_acc (seen : list cell) (l : list cell) : list cell :=
  match l with
  | [] => []
  | c :: l' =>
      if existsb (fun s => cell_same s c) seen then unique_acc seen l'
      else c :: unique_acc (seen ++ [c]) l'
  end.

Definition unique (l : list cell) : list cell := unique_acc [] l.

End Pandas.
Import Pandas.

(** ** Feature / metadata accessor *)

(** return a list of metadata columns *)
Definition get_metacols (df : DataFrame) : list string :=
  filter (fun c => String.prefix "Metadata_" c) (columns df).

(** return a list of featuredata columns *)
Definition get_featurecols (df : DataFrame) : list string :=
  filter (fun c => negb (String.prefix "Metadata" c)) (columns df).

(** return dataframe of just metadata columns *)
Definition get_metadata (df : DataFrame) : result DataFrame :=
  getitems df (get_metacols df).

(** return dataframe of just featuredata columns *)
Definition get_featuredata (df : DataFrame) : result DataFrame :=
  getitems df (get_featurecols df).

(** return dataframe of non-negative-control wells *)
Definition remove_negcon_empty_wells (df : DataFrame) : result DataFrame :=
  df1 <- query_ne df "Metadata_control_type" "negcon" ;;
  df2 <- dropna_subset df1 "Metadata_broad_sample" ;;
  Ok (reset_index_drop df2).

(** ** Arrays of binary64 numbers *)

Module Numpy.

Local Open Scope float_scope.

(** A 2-D array: its column count (meaningful also when there is no row) and
    its rows. *)
Record matrix : Type := mkMat
  { ncols : nat;
    mrows : list (list float) }.

Inductive ndarray : Type :=
| Arr0 (x : float)
| Arr1 (v : list float)
| Arr2 (m : matrix).

Definition nrows (m : matrix) : nat := length (mrows m).

Definition rectangular (m : matrix) : Prop :=
  Forall (fun r => length r = ncols m) (mrows m).

Definition of_nat (n : nat) : float := of_uint63 (Uint63.of_Z (Z.of_nat n)).

Definition notnan (x : float) : bool := negb (is_nan x).

(** [np.add.reduce]: the first element, then the others added in turn; the
    sum of nothing is 0. *)
Definition fsum (l : list float) : float :=
  match l with
  | [] => 0
  | x :: l' => fold_left add l' x
  end.

(** [np.mean] of a 1-D array: sum over count (0/0 = NaN when empty). *)
Definition mean (l : list float) : float := fsum l / of_nat (length l).

(** [bools.astype(float)] *)
Definition astype_float (l : list bool) : list float :=
  map (fun b : bool => if b then 1 else 0) l.

(** Sorting, as [np.sort] / [partition] order floats that are not NaN. *)
Fixpoint insert_sorted (x : float) (l : list float) : list float :=
  match l with
  | [] => [x]
  | y :: l' => if x <=? y then x :: l else y :: insert_sorted x l'
  end.

Fixpoint sort (l : list float) : list float :=
  match l with
  | [] => []
  | x :: l' => insert_sorted x (sort l')
  end.

(** [floor] of a non-negative float known to be at most [k], as an index. *)
Fixpoint floor_upto (x : float) (k : nat) : nat :=
  match k with
  | O => O
  | S k' => if of_nat k <=? x then k else floor_upto x k'
  end.

(** [numpy.lib.function_base._lerp] *)
Definition lerp (a b t : float) : float :=
  let diff_b_a := b - a in
  if 0.5 <=? t then b - diff_b_a * (1 - t) else a + diff_b_a * t.

(** [np.percentile] of a sorted array without NaN, default (linear) method:
    virtual index [(n - 1) * q/100], the two neighbours, [lerp] with the
    distance to the lower neighbour.  A virtual index at or beyond the last
    position takes the last entry for both neighbours (index -1), one
    below 0 the first entry. *)
Definition percentile_sorted (arr : list float) (q : float) : float :=
  let n := length arr in
  let quantile := q / 100 in
  let virtual_index := of_nat (n - 1) * quantile in
  if of_nat (n - 1) <=? virtual_index then
    lerp (nth (n - 1) arr nan) (nth (n - 1) arr nan) (virtual_index - (-1))
  else if virtual_index <? 0 then
    lerp (nth 0 arr nan) (nth 0 arr nan) (virtual_index - 0)
  else
    let previous_index := floor_upto virtual_index (n - 1) in
    let gamma := virtual_index - of_nat previous_index in
    lerp (nth previous_index arr nan) (nth (previous_index + 1) arr nan) gamma.

(** [np.nanpercentile(a, q)]: NaN entries are dropped first; NaN when nothing
    is left. *)
Definition nanpercentile (a : list float) (q : float) : float :=
  match filter notnan a with
  | [] => nan
  | arr => percentile_sorted (sort arr) q
  end.

(** [np.median] of values without NaN: the middle one, or the mean of the
    two middle ones. *)
Definition median (l : list float) : float :=
  let part := sort l in
  let n := length part in
  if Nat.even n
  then mean [nth (n / 2 - 1) part nan; nth (n / 2) part nan]
  else nth (n / 2) part nan.

(** [np.nanmedian] of a flattened array. *)
Definition nanmedian (a : list float) : float :=
  match filter notnan a with
  | [] => nan
  | arr => median arr
  end.

Definition flatten (m : matrix) : list float := concat (mrows m).

(** [np.clip(x, lo, hi)] on one entry. *)
Definition clip (lo hi x : float) : float :=
  if x <? lo then lo else if hi <? x then hi else x.

(** Inner product of two rows, accumulated left to right. *)
Definition inner (u v : list float) : float :=
  fsum (map (fun p => fst p * snd p) (combine u v)).

Definition column (j : nat) (rows : list (list float)) : list float :=
  map (fun r => nth j r nan) rows.

Definition transpose (m : matrix) : matrix :=
  {| ncols := nrows m;
     mrows := map (fun j => column j (mrows m)) (seq 0 (ncols m)) |}.

(** [np.dot] of two 2-D arrays; the inner dimensions must agree. *)
Definition dot (a b : matrix) : result matrix :=
  if Nat.eqb (ncols a) (nrows b) then
    Ok {| ncols := ncols b;
          mrows := map (fun r => map (fun j => inner r (column j (mrows b)))
                                     (seq 0 (ncols b)))
                       (mrows a) |}
  else Raise ValueError.

(** [np.diag] of a 1-D array (the diagonal matrix) and of a 2-D array (its
    main diagonal). *)
Definition diag_of_vector (v : list float) : matrix :=
  {| ncols := length v;
     mrows := map (fun i => map (fun j => if Nat.eqb i j then nth i v nan else 0)
                                (seq 0 (length v)))
                  (seq 0 (length v)) |}.

Definition diag_of_matrix (m : matrix) : list float :=
  map (fun i => nth i (nth i (mrows m) []) nan) (seq 0 (Nat.min (nrows m) (ncols m))).

(** [np.fill_diagonal(a, v)] on a 2-D array. *)
Definition fill_diagonal (m : matrix) (v : float) : matrix :=
  {| ncols := ncols m;
     mrows := map (fun ir => map (fun jx => if Nat.eqb (fst ir) (fst jx) then v else snd jx)
                                 (combine (seq 0 (length (snd ir))) (snd ir)))
                  (combine (seq 0 (nrows m)) (mrows m)) |}.

(** [np.concatenate((X, y), axis=0)] *)
Definition concatenate_rows (X y : matrix) : result matrix :=
  if Nat.eqb (ncols X) (ncols y)
  then Ok {| ncols := ncols X; mrows := mrows X ++ mrows y |}
  else Raise ValueError.

(** [np.cov(X, y)] with variables in rows: an array without rows gives the
    empty 0 x 0 array at once; otherwise [y] is stacked under [X], the rows
    are centred on their mean, and their pairwise inner products are scaled
    by [1 / (N - 1)]; [squeeze] turns a 1 x 1 result into a scalar. *)
Definition cov (X : matrix) (y : option matrix) : result ndarray :=
  match mrows X with
  | [] => Ok (Arr2 {| ncols := 0; mrows := [] |})
  | _ =>
      X <- match y with
           | Some y => concatenate_rows X y
           | None => Ok X
           end ;;
      let fact := if Nat.leb (ncols X) 1 then 0 else of_nat (ncols X - 1) in
      let Xc := map (fun r => let avg := mean r in map (fun x => x - avg) r) (mrows X) in
      let c := map (fun r => map (fun r' => inner r r' * (1 / fact)) Xc) Xc in
      match c with
      | [[x]] => Ok (Arr0 x)
      | _ => Ok (Arr2 {| ncols := length c; mrows := c |})
      end
  end.

(** [np.corrcoef(x, y)]: the covariance with entry (i, j) divided by the
    standard deviation of row i, then by that of row j, then clipped to
    [-1, 1]; a scalar covariance [c] gives [c / c]. *)
Definition corrcoef (x : matrix) (y : option matrix) : result ndarray :=
  c <- cov x y ;;
  match c with
  | Arr2 c =>
      let stddev := map sqrt (diag_of_matrix c) in
      Ok (Arr2 {| ncols := ncols c;
                  mrows := map (fun ir =>
                                  map (fun jx => clip (-1) 1
                                                   (snd jx / nth (fst ir) stddev nan
                                                           / nth (fst jx) stddev nan))
                                      (combine (seq 0 (length (snd ir))) (snd ir)))
                               (combine (seq 0 (nrows c)) (mrows c)) |})
  | Arr0 c => Ok (Arr0 (c / c))
  | Arr1 v => Ok (Arr1 v)
  end.

(** [np.fill_diagonal(a, v)] needs at least two dimensions. *)
Definition fill_diagonal_nd (a : ndarray) (v : float) : result ndarray :=
  match a with
  | Arr2 m => Ok (Arr2 (fill_diagonal m v))
  | _ => Raise ValueError
  end.

(** [np.nanmedian(a)] over all entries of an array. *)
Definition nanmedian_nd (a : ndarray) : float :=
  match a with
  | Arr0 x => nanmedian [x]
  | Arr1 v => nanmedian v
  | Arr2 m => nanmedian (flatten m)
  end.

(** [a[0:k, k:]]: the first [k] rows, without their first [k] columns. *)
Definition block_upper_right (a : ndarray) (k : nat) : result ndarray :=
  match a with
  | Arr2 m => Ok (Arr2 {| ncols := ncols m - k;
                          mrows := map (skipn k) (firstn k (mrows m)) |})
  | _ => Raise IndexError
  end.

End Numpy.
Import Numpy.

(** ** Tables as arrays, grouping, joining *)

Module Frames.

(** [df.to_numpy()]: the cells as they are, with the table's column count. *)
Record object_array : Type := mkObj
  { ocols : nat;
    orows : list (list cell) }.

Definition to_numpy (df : DataFrame) : object_array :=
  {| ocols := length (columns df); orows := values df |}.

(** Conversion of the cells to binary64; text cannot be converted and
    raises [e].  The tables modelled hold no text that spells a number
    (numpy parses such text where it converts an array of objects). *)
Definition to_float (e : exn) (c : cell) : result float :=
  match c with
  | Num x => Ok x
  | Str _ => Raise e
  end.

Definition astype_float64 (e : exn) (a : object_array) : result matrix :=
  rows <- mapM (mapM (to_float e)) (orows a) ;;
  Ok {| ncols := ocols a; mrows := rows |}.

(** [np.corrcoef] applied to tables: arithmetic on text is a [TypeError]. *)
Definition corrcoef_frames (x : DataFrame) (y : option DataFrame) : result ndarray :=
  X <- astype_float64 TypeError (to_numpy x) ;;
  match y with
  | None => corrcoef X None
  | Some y => Y <- astype_float64 TypeError (to_numpy y) ;; corrcoef X (Some Y)
  end.

(** The order of sorted keys: numbers before text, numbers by value, text
    by code point. *)
Definition cell_leb (a b : cell) : bool :=
  match a, b with
  | Num x, Num y => PrimFloat.leb x y
  | Num _, Str _ => true
  | Str _, Num _ => false
  | Str s, Str t => String.leb s t
  end.

Fixpoint insert_cell (x : cell) (l : list cell) : list cell :=
  match l with
  | [] => [x]
  | y :: l' => if cell_leb x y then x :: l else y :: insert_cell x l'
  end.

Fixpoint sort_cells (l : list cell) : list cell :=
  match l with
  | [] => []
  | x :: l' => insert_cell x (sort_cells l')
  end.


(** [np.array(list)] of a column: when text is present every entry becomes
    text, a missing entry the text ["nan"]. *)
Definition is_str (c : cell) : bool :=
  match c with
  | Str _ => true
  | Num _ => false
  end.

Definition asarray (l : list cell) : list cell :=
  if existsb is_str l
  then map (fun c => if isna c then Str "nan" else c) l
  else l.

(** [np.intersect1d(a, b)]: the sorted distinct values found in both. *)
Definition intersect1d (a b : list cell) : list cell :=
  let ua := unique (asarray a) in
  let ub := unique (asarray b) in
  sort_cells (filter (fun x => existsb (fun y => cell_eqb x y) ub) ua).

(** [pd.concat([a, b], join='inner', ignore_index=False)]: the columns of
    [a] that [b] has too, the rows of [a] then those of [b], labels kept. *)
Definition concat_inner (a b : DataFrame) : DataFrame :=
  let cols := filter (fun c => existsb (String.eqb c) (columns b)) (columns a) in
  let pick (df : DataFrame) :=
    map (fun row => map (fun c => match get_loc c (columns df) with
                                  | Some j => cell_at j row
                                  | None => Num nan
                                  end) cols) (values df) in
  {| columns := cols;
     index := index a ++ index b;
     values := pick a ++ pick b |}.

(** [df.loc[df[col] == v]] *)
Definition loc_eq (df : DataFrame) (col : string) (v : cell) : result DataFrame :=
  column <- getitem df col ;;
  Ok (loc_mask df (map (fun c => cell_eqb c v) column)).

(** [df.loc[labels]] on a table whose labels are [0 .. len-1]. *)
Definition loc_labels (df : DataFrame) (labels : list nat) : result DataFrame :=
  rows <- mapM (fun i => match nth_error (values df) i with
                         | Some r => Ok r
                         | None => Raise KeyError
                         end) labels ;;
  Ok {| columns := columns df;
        index := map Z.of_nat labels;
        values := rows |}.

End Frames.
Import Frames.

(** ** The random generator *)

Module Random.

Local Open Scope float_scope.

(** The [n]-th call of [random.random()] returns [tape n / 2^53]. *)
Definition tape : Type := nat -> Z.

Definition random (t : tape) (pos : nat) : float :=
  of_uint63 (Uint63.of_Z (t pos mod 2 ^ 53)) * 0x1p-53.

(** The indices [floor(random() * n)] of [k] successive draws. *)
Fixpoint choices_indices (t : tape) (pos : nat) (n : nat) (k : nat) : list nat :=
  match k with
  | O => []
  | S k' => floor_upto (random t pos * of_nat n) n :: choices_indices t (S pos) n k'
  end.

(** [random.choices(population, k=k)]:
    [[population[floor(random() * n)] for i in range(k)]]. *)
Definition choices {A : Type} (t : tape) (pos : nat) (population : list A) (k : nat)
  : result (list A) :=
  mapM (fun i => match nth_error population i with
                 | Some a => Ok a
                 | None => Raise IndexError
                 end)
       (choices_indices t pos (length population) k).

End Random.
Import Random.

(** ** Percent score *)

(** What [percent_score] returns: a pair, a triple, or [None]. *)
Inductive score : Type :=
| Tuple2 (proportion threshold : float)
| Tuple3 (proportion perc_95 perc_5 : float)
| PyNone.

(** Calculates the Percent replicating: proportion of the correlation
    distribution beyond the threshold. *)
Definition percent_score (null_dist corr_dist : list float) (how : string) : score :=
  if String.eqb how "right" then
    let perc_95 := nanpercentile null_dist 95 in
    let above_threshold := map (fun c => PrimFloat.ltb perc_95 c) corr_dist in
    Tuple2 (mean (astype_float above_threshold)) perc_95
  else if String.eqb how "left" then
    let perc_5 := nanpercentile null_dist 5 in
    let below_threshold := map (fun c => PrimFloat.ltb c perc_5) corr_dist in
    Tuple2 (mean (astype_float below_threshold)) perc_5
  else if String.eqb how "both" then
    let perc_95 := nanpercentile null_dist 95 in
    let above_threshold := map (fun c => PrimFloat.ltb perc_95 c) corr_dist in
    let perc_5 := nanpercentile null_dist 5 in
    let below_threshold := map (fun c => PrimFloat.ltb c perc_5) corr_dist in
    Tuple3 (PrimFloat.add (mean (astype_float above_threshold))
                          (mean (astype_float below_threshold)))
           perc_95 perc_5
  else PyNone.

(** ** Replicate correlation engine *)


(** One pass through the body of the [while] loop of
    [corr_between_non_replicates], reading the tape at [pos]: the value to
    append, or [None] when the draw is rejected. *)
Definition non_replicates_draw (t : tape) (pos : nat) (df : DataFrame)
  (n_replicates : nat) (metadata_compound_name : string) : result (option float) :=
  compounds <- choices t pos (seq 0 (len df)) n_replicates ;;
  sample <- loc_labels df compounds ;;
  names <- getitem sample metadata_compound_name ;;
  if Nat.eqb (length (unique names)) n_replicates then
    sample_features <- get_featuredata sample ;;
    corr <- corrcoef_frames sample_features None ;;
    corr <- fill_diagonal_nd corr nan ;;
    Ok (Some (nanmedian_nd corr))
  else Ok None.

(** The [while len(null_corr) < n_samples] loop; [fuel] bounds the number of
    passes, [None] is a run that needs more. *)
Fixpoint non_replicates_loop (fuel : nat) (t : tape) (pos : nat) (df : DataFrame)
  (n_samples n_replicates : nat) (metadata_compound_name : string)
  (null_corr : list float) : option (result (list float * nat)) :=
  if Nat.ltb (length null_corr) n_samples then
    match fuel with
    | O => None
    | S fuel' =>
        match non_replicates_draw t pos df n_replicates metadata_compound_name with
        | Raise e => Some (Raise e)
        | Ok (Some c) =>
            non_replicates_loop fuel' t (pos + n_replicates) df n_samples n_replicates
              metadata_compound_name (null_corr ++ [c])
        | Ok None =>
            non_replicates_loop fuel' t (pos + n_replicates) df n_samples n_replicates
              metadata_compound_name null_corr
        end
    end
  else Some (Ok (null_corr, pos)).

(** Null distribution between random "replicates": the list of correlation
    values and the position reached on the tape. *)
Definition corr_between_non_replicates (fuel : nat) (t : tape) (pos : nat)
  (df : DataFrame) (n_samples n_replicates : nat) (metadata_compound_name : string)
  : option (result (list float * nat)) :=
  let df := reset_index_drop df in
  non_replicates_loop fuel t pos df n_samples n_replicates metadata_compound_name [].

(** ** Cross-modality correlation engine *)

(** The two nested [for] loops over the perturbations of either side (the
    same text in both functions below). *)
Definition perturbation_pairs (modality_1_perturbation_df modality_2_perturbation_df : DataFrame)
  (metadata_perturbation : string) : result (list float) :=
  samples_1 <- getitem modality_1_perturbation_df metadata_perturbation ;;
  per_sample_1 <-
    mapM (fun sample_1 =>
            samples_2 <- getitem modality_2_perturbation_df metadata_perturbation ;;
            mapM (fun sample_2 =>
                    modality_1_perturbation_sample_df <-
                      loc_eq modality_1_perturbation_df metadata_perturbation sample_1 ;;
                    modality_2_perturbation_sample_df <-
                      loc_eq modality_2_perturbation_df metadata_perturbation sample_2 ;;
                    modality_1_perturbation_profiles <-
                      get_featuredata modality_1_perturbation_sample_df ;;
                    modality_2_perturbation_profiles <-
                      get_featuredata modality_2_perturbation_sample_df ;;
                    corr <- corrcoef_frames modality_1_perturbation_profiles
                                            (Some modality_2_perturbation_profiles) ;;
                    corr <- block_upper_right corr (len modality_1_perturbation_profiles) ;;
                    Ok (nanmedian_nd corr))
                 (unique samples_2))
         (unique samples_1) ;;
  Ok (concat per_sample_1).

(** Compute the correlation between two different modalities. *)
Definition correlation_between_modalities (modality_1_df modality_2_df : DataFrame)
  (modality_1 modality_2 metadata_common metadata_perturbation : string)
  : result (list float) :=
  common_1 <- getitem modality_1_df metadata_common ;;
  common_2 <- getitem modality_2_df metadata_common ;;
  let list_common_perturbation_groups := intersect1d common_1 common_2 in
  let merged_df := concat_inner modality_1_df modality_2_df in
  modality_1_df <- query_eq merged_df "Metadata_modality" modality_1 ;;
  modality_2_df <- query_eq merged_df "Metadata_modality" modality_2 ;;
  per_group <-
    mapM (fun group =>
            modality_1_perturbation_df <- loc_eq modality_1_df metadata_common group ;;
            modality_2_perturbation_df <- loc_eq modality_2_df metadata_common group ;;
            perturbation_pairs modality_1_perturbation_df modality_2_perturbation_df
              metadata_perturbation)
         list_common_perturbation_groups ;;
  Ok (concat per_group).

(** [perturbations = random.choices(list_common_perturbation_groups, k=2)] *)
Definition draw_perturbations (t : tape) (pos : nat)
  (list_common_perturbation_groups : list cell) : result (cell * cell) :=
  perturbations <- choices t pos list_common_perturbation_groups 2 ;;
  match perturbations with
  | [p0; p1] => Ok (p0, p1)
  | _ => Raise IndexError
  end.

(** The [while count < n_samples] loop, [remaining = n_samples - count]. *)
Fixpoint null_modalities_loop (remaining : nat) (t : tape) (pos : nat)
  (modality_1_df modality_2_df : DataFrame)
  (list_common_perturbation_groups : list cell)
  (metadata_common metadata_perturbation : string)
  (null_modalities : list float) : result (list float * nat) :=
  match remaining with
  | O => Ok (null_modalities, pos)
  | S remaining' =>
      perturbations <- draw_perturbations t pos list_common_perturbation_groups ;;
      modality_1_perturbation_df <-
        loc_eq modality_1_df metadata_common (fst perturbations) ;;
      modality_2_perturbation_df <-
        loc_eq modality_2_df metadata_common (snd perturbations) ;;
      found <- perturbation_pairs modality_1_perturbation_df modality_2_perturbation_df
                 metadata_perturbation ;;
      null_modalities_loop remaining' t (pos + 2) modality_1_df modality_2_df
        list_common_perturbation_groups metadata_common metadata_perturbation
        (null_modalities ++ found)
  end.

(** The null counterpart of [correlation_between_modalities]: the list of
    correlation values and the position reached on the tape. *)
Definition null_correlation_between_modalities (t : tape) (pos : nat)
  (modality_1_df modality_2_df : DataFrame)
  (modality_1 modality_2 metadata_common metadata_perturbation : string)
  (n_samples : nat) : result (list float * nat) :=
  common_1 <- getitem modality_1_df metadata_common ;;
  common_2 <- getitem modality_2_df metadata_common ;;
  let list_common_perturbation_groups := intersect1d common_1 common_2 in
  let merged_df := concat_inner modality_1_df modality_2_df in
  modality_1_df <- query_eq merged_df "Metadata_modality" modality_1 ;;
  modality_2_df <- query_eq merged_df "Metadata_modality" modality_2 ;;
  null_modalities_loop n_samples t pos modality_1_df modality_2_df
    list_common_perturbation_groups metadata_common metadata_perturbation [].

(** ** ZCA-correlation sphering *)

Module Sphering.

Local Open Scope float_scope.

(** [np.maximum]: a NaN on either side is the result. *)
Definition maximum (x y : float) : float :=
  if is_nan x then x
  else if is_nan y then y
  else if x <? y then y else x.

(** [np.nan_to_num] on one entry: NaN becomes 0, an infinity the largest
    finite number of its sign. *)
Definition nan_to_num (x : float) : float :=
  if is_nan x then 0
  else if x =? infinity then 0x1.fffffffffffffp+1023
  else if x =? neg_infinity then -0x1.fffffffffffffp+1023
  else x.

(** The running sums of pandas' [nancorr] for one pair of columns. *)
Record welford : Type := mkWelford
  { nobs : nat;
    meanx : float;
    meany : float;
    ssqdmx : float;
    ssqdmy : float;
    covxy : float }.

Definition welford_step (w : welford) (v : float * float) : welford :=
  let vx := fst v in
  let vy := snd v in
  if is_finite vx && is_finite vy then
    let nobs' := S (nobs w) in
    let dx := vx - meanx w in
    let dy := vy - meany w in
    let meanx' := meanx w + 1 / of_nat nobs' * dx in
    let meany' := meany w + 1 / of_nat nobs' * dy in
    {| nobs := nobs';
       meanx := meanx';
       meany := meany';
       ssqdmx := ssqdmx w + (vx - meanx') * dx;
       ssqdmy := ssqdmy w + (vy - meany') * dy;
       covxy := covxy w + (vx - meanx') * dy |}
  else w.

(** The coefficient is clipped to [-1, 1]; no complete pair of
    observations, or a zero divisor, gives NaN. *)
Definition clip_coefficient (val : float) : float :=
  if 1 <? val then 1 else if val <? -1 then -1 else val.

Definition pearson (x y : list float) : float :=
  let w := fold_left welford_step (combine x y)
             {| nobs := 0; meanx := 0; meany := 0; ssqdmx := 0; ssqdmy := 0; covxy := 0 |} in
  if Nat.ltb (nobs w) 1 then nan
  else
    let divisor := sqrt (ssqdmx w * ssqdmy w) in
    if divisor =? 0 then nan
    else clip_coefficient (covxy w / divisor).

(** [pd.DataFrame(X).corr()]: Pearson correlation of every pair of columns;
    entry (i, j) and entry (j, i) are both computed with the column of the
    larger index in first place. *)
Definition DataFrame_corr (X : matrix) : matrix :=
  let d := ncols X in
  {| ncols := d;
     mrows := map (fun i => map (fun j => pearson (column (Nat.max i j) (mrows X))
                                                  (column (Nat.min i j) (mrows X)))
                                (seq 0 d))
                  (seq 0 d) |}.

Definition map_matrix (f : float -> float) (m : matrix) : matrix :=
  {| ncols := ncols m; mrows := map (map f) (mrows m) |}.

(** [a - v] for a 2-D [a] and a 1-D [v], with numpy's broadcasting: equal
    widths subtract entry by entry, a one-entry [v] is subtracted everywhere,
    a one-column [a] is stretched to the width of [v]. *)
Definition broadcast_sub (a : matrix) (v : list float) : result matrix :=
  if Nat.eqb (ncols a) (length v) then
    Ok {| ncols := ncols a;
          mrows := map (fun r => map (fun p => fst p - snd p) (combine r v)) (mrows a) |}
  else if Nat.eqb (length v) 1 then
    Ok {| ncols := ncols a;
          mrows := map (fun r => map (fun x => x - nth 0 v nan) r) (mrows a) |}
  else if Nat.eqb (ncols a) 1 then
    Ok {| ncols := length v;
          mrows := map (fun r => map (fun y => nth 0 r nan - y) v) (mrows a) |}
  else Raise ValueError.

(** [np.dot] by the dimensions of its arguments. *)
Definition dot_nd (a b : ndarray) : result ndarray :=
  match a, b with
  | Arr2 a, Arr2 b => m <- dot a b ;; Ok (Arr2 m)
  | Arr2 a, Arr1 v =>
      if Nat.eqb (ncols a) (length v)
      then Ok (Arr1 (map (fun r => inner r v) (mrows a)))
      else Raise ValueError
  | Arr1 v, Arr2 b =>
      if Nat.eqb (length v) (nrows b)
      then Ok (Arr1 (map (fun j => inner v (column j (mrows b))) (seq 0 (ncols b))))
      else Raise ValueError
  | Arr1 u, Arr1 v =>
      if Nat.eqb (length u) (length v) then Ok (Arr0 (inner u v)) else Raise ValueError
  | Arr0 x, Arr0 y => Ok (Arr0 (x * y))
  | Arr0 x, Arr1 v => Ok (Arr1 (map (fun y => x * y) v))
  | Arr1 v, Arr0 y => Ok (Arr1 (map (fun x => x * y) v))
  | Arr0 x, Arr2 m => Ok (Arr2 (map_matrix (fun y => x * y) m))
  | Arr2 m, Arr0 y => Ok (Arr2 (map_matrix (fun x => x * y) m))
  end.

(** [a.T] *)
Definition transpose_nd (a : ndarray) : ndarray :=
  match a with
  | Arr2 m => Arr2 (transpose m)
  | _ => a
  end.

(** [np.diag]: a 1-D array gives the diagonal matrix, a 2-D array its
    diagonal. *)
Definition diag_nd (a : ndarray) : result ndarray :=
  match a with
  | Arr1 v => Ok (Arr2 (diag_of_vector v))
  | Arr2 m => Ok (Arr1 (diag_of_matrix m))
  | Arr0 _ => Raise ValueError
  end.

Definition map_nd (f : float -> float) (a : ndarray) : ndarray :=
  match a with
  | Arr0 x => Arr0 (f x)
  | Arr1 v => Arr1 (map f v)
  | Arr2 m => Arr2 (map_matrix f m)
  end.

(** [T.clip(regularization)] for a 1-D [T]: the bound is a scalar, or a
    1 x n array against which [T] is broadcast. *)
Definition clip_min (T : list float) (a_min : ndarray) : result ndarray :=
  match a_min with
  | Arr0 r => Ok (Arr1 (map (fun x => maximum x r) T))
  | Arr1 v =>
      if Nat.eqb (length v) (length T)
      then Ok (Arr1 (map (fun p => maximum (fst p) (snd p)) (combine T v)))
      else Raise ValueError
  | Arr2 m =>
      if Nat.eqb (ncols m) (length T)
      then Ok (Arr2 {| ncols := ncols m;
                       mrows := map (fun r => map (fun p => maximum (fst p) (snd p))
                                                  (combine T r))
                                    (mrows m) |})
      else Raise ValueError
  end.

(** [sklearn.utils.check_array] with the arguments of [fit]: a numeric 2-D
    array, every entry finite, at least one row and one column. *)
Definition check_array (a : object_array) : result matrix :=
  X <- astype_float64 ValueError a ;;
  if forallb (forallb is_finite) (mrows X) then
    if Nat.ltb (nrows X) 1 then Raise ValueError
    else if Nat.ltb (ncols X) 1 then Raise ValueError
    else Ok X
  else Raise ValueError.

(** [sklearn.utils.as_float_array] of an array. *)
Definition as_float_array (a : object_array) : result matrix :=
  astype_float64 ValueError a.

(** The transformer: its constructor argument and the attributes [fit]
    creates. *)
Record ZCA_corr : Type := mkZCA
  { copy : bool;
    mean_ : option (list float);
    sphere_ : option ndarray }.

Definition ZCA_corr_init (copy : bool) : ZCA_corr :=
  {| copy := copy; mean_ := None; sphere_ := None |}.

Section Decompositions.

(** [scipy.linalg.svd]: the factors [U], [s], [Vh] of a matrix. *)
Variable svd : matrix -> result (matrix * list float * matrix).

(** [kneed.KneeLocator(x, y, S=1.0, curve='convex',
    direction='decreasing').elbow]: an entry of [x], or [None]. *)
Variable KneeLocator_elbow : list nat -> list float -> result (option nat).

(** [eigenvalue[kneedle.elbow]/10.0]; indexing with [None] adds an axis in
    front instead of selecting an entry. *)
Definition estimate_regularization (eigenvalue : list float) : result ndarray :=
  let x := seq 0 (length eigenvalue) in
  elbow <- KneeLocator_elbow x eigenvalue ;;
  match elbow with
  | Some i =>
      match nth_error eigenvalue i with
      | Some v => Ok (Arr0 (v / 10))
      | None => Raise IndexError
      end
  | None =>
      Ok (Arr2 {| ncols := length eigenvalue;
                  mrows := [map (fun v => v / 10) eigenvalue] |})
  end.

(** The body of [fit] after [self.mean_] is set: the sphereing matrix. *)
Definition fit_sphere (X : matrix) (mean : list float) : result ndarray :=
  X_ <- broadcast_sub X mean ;;
  xtx <- dot (transpose X_) X_ ;;
  let cov := map_matrix (fun c => c / of_nat (nrows X_ - 1)) xtx in
  let V := diag_of_matrix cov in
  let corr := map_matrix nan_to_num (DataFrame_corr X_) in
  GT_ <- svd corr ;;
  let G := fst (fst GT_) in
  let T := snd (fst GT_) in
  regularization <- estimate_regularization T ;;
  clipped <- clip_min T regularization ;;
  let t := map_nd sqrt clipped in
  t_inv <- diag_nd (map_nd (fun x => 1 / x) t) ;;
  let v_inv := diag_of_vector (map (fun v => 1 / sqrt (maximum v 1e-3)) V) in
  GtI <- dot_nd (Arr2 G) t_inv ;;
  GtIGt <- dot_nd GtI (Arr2 (transpose G)) ;;
  dot_nd GtIGt (Arr2 v_inv).

(** Compute the mean, sphereing and desphereing matrices.  The transformer
    after the call, and whether the call raised. *)
Definition fit (self : ZCA_corr) (X : object_array) : ZCA_corr * result unit :=
  match check_array X with
  | Raise e => (self, Raise e)
  | Ok X =>
      let mean := map (fun j => mean (column j (mrows X))) (seq 0 (ncols X)) in
      let self := {| copy := copy self; mean_ := Some mean; sphere_ := sphere_ self |} in
      match fit_sphere X mean with
      | Raise e => (self, Raise e)
      | Ok sphere =>
          ({| copy := copy self; mean_ := mean_ self; sphere_ := Some sphere |}, Ok tt)
      end
  end.

(** [transform]: [check_is_fitted(self, "mean_")], then
    [np.dot(X - self.mean_, self.sphere_.T)]. *)
Definition transform (self : ZCA_corr) (X : object_array) : result ndarray :=
  match mean_ self with
  | None => Raise NotFittedError
  | Some mean =>
      X <- as_float_array X ;;
      centred <- broadcast_sub X mean ;;
      match sphere_ self with
      | None => Raise AttributeError
      | Some sphere => dot_nd (Arr2 centred) (transpose_nd sphere)
      end
  end.

(** [pd.DataFrame(values, columns=columns, index=index)] *)
Definition DataFrame_of_array (a : ndarray) (cols : list string) (idx : list Z)
  : result DataFrame :=
  match a with
  | Arr2 m =>
      if Nat.eqb (nrows m) (length idx) && Nat.eqb (ncols m) (length cols)
      then Ok {| columns := cols; index := idx; values := map (map Num) (mrows m) |}
      else Raise ValueError
  | Arr1 v =>
      if Nat.eqb (length v) (length idx) && Nat.eqb 1 (length cols)
      then Ok {| columns := cols; index := idx; values := map (fun x => [Num x]) v |}
      else Raise ValueError
  | Arr0 _ => Raise ValueError
  end.

(** [pd.concat([a, b], axis=1)] of two tables carrying the same row
    labels. *)
Definition concat_axis1 (a b : DataFrame) : DataFrame :=
  {| columns := columns a ++ columns b;
     index := index a;
     values := map (fun p => fst p ++ snd p) (combine (values a) (values b)) |}.

(** sphere each plate to the DMSO negative control values *)
Definition sphere_plate_zca_corr (plate : DataFrame) : result DataFrame :=
  let sphereer := ZCA_corr_init false in
  control_type <- match getitem plate "Metadata_control_type" with
                  | Ok c => Ok c
                  | Raise _ => Raise AttributeError
                  end ;;
  let dmso_df := loc_mask plate (map (fun c => cell_eqb c (Str "negcon")) control_type) in
  dmso_features <- get_featuredata dmso_df ;;
  let dmso_vals := to_numpy dmso_features in
  all_features <- get_featuredata plate ;;
  let all_vals := to_numpy all_features in
  let fitted := fit sphereer dmso_vals in
  _ <- snd fitted ;;
  sphereed_vals <- transform (fst fitted) all_vals ;;
  feature_df <- DataFrame_of_array sphereed_vals (get_featurecols plate) (index plate) ;;
  metadata <- get_metadata plate ;;
  let combined := concat_axis1 feature_df metadata in
  if Nat.eqb (fst (shape combined)) (fst (shape plate))
     && Nat.eqb (snd (shape combined)) (snd (shape plate))
  then Ok combined
  else Raise AssertionError.

End Decompositions.

End Sphering.
Import Sphering.

(** ** Statements compared with the code, and sample tables *)

(** A table whose columns the two accessors split in two: no label starts
    with "Metadata" without going on with the underscore. *)
Definition partitioned (df : DataFrame) : Prop :=
  forall c, In c (columns df) ->
            String.prefix "Metadata" c = true -> String.prefix "Metadata_" c = true.

(** The accessors classify every column once: the two lists share no
    label and together hold every label of the table. *)
Definition accessors_partition (df : DataFrame) : Prop :=
  (forall c, ~ (In c (get_metacols df) /\ In c (get_featurecols df))) /\
  (forall c, In c (columns df) <-> In c (get_metacols df) \/ In c (get_featurecols df)).

Definition plate_with_stray_label : DataFrame :=
  {| columns := ["Metadata_control_type"; "MetadataWell"; "Cells_AreaShape_Area"];
     index := [0%Z];
     values := [[Str "negcon"; Str "A01"; Num 1%float]] |}.

(** The two conditions of the well filter on a row, given the positions of
    the control-type and perturbation columns. *)
Definition is_negcon (jc : nat) (r : list cell) : bool :=
  cell_eqb (cell_at jc r) (Str "negcon").

Definition lacks_perturbation (jb : nat) (r : list cell) : bool :=
  isna (cell_at jb r).


Definition wells : DataFrame :=
  {| columns := ["Metadata_control_type"; "Metadata_broad_sample"; "Cells_AreaShape_Area"];
     index := [0%Z; 1%Z; 2%Z];
     values := [[Str "negcon"; Str "DMSO"; Num 1%float];
                [Num nan; Num nan; Num 2%float];
                [Num nan; Str "BRD-K0001"; Num 3%float]] |}.

(** Two modalities sharing the genes EGFR and TP53. *)
Definition compound_profiles : DataFrame :=
  {| columns := ["Metadata_modality"; "Metadata_genes"; "Metadata_broad_sample";
                 "Cells_Area"; "Cells_Intensity"; "Nuclei_Area"];
     index := [0%Z; 1%Z];
     values := [[Str "Compounds"; Str "TP53"; Str "BRD-A"; Num 1%float; Num 2%float; Num 4%float];
                [Str "Compounds"; Str "EGFR"; Str "BRD-B"; Num 3%float; Num 1%float; Num 2%float]] |}.

Definition crispr_profiles : DataFrame :=
  {| columns := ["Metadata_modality"; "Metadata_genes"; "Metadata_broad_sample";
                 "Cells_Area"; "Cells_Intensity"; "Nuclei_Area"];
     index := [0%Z; 1%Z];
     values := [[Str "CRISPR"; Str "TP53"; Str "sg-TP53"; Num 2%float; Num 4%float; Num 8%float];
                [Str "CRISPR"; Str "EGFR"; Str "sg-EGFR"; Num 6%float; Num 2%float; Num 4%float]] |}.

(** A generator whose every call of [random()] returns 0. *)
Definition constant_tape : tape := fun _ => 0%Z.

(** The cross-modality null sampler read as drawing two different common
    keys in every pass. *)
Definition draws_distinct_keys (groups : list cell) : Prop :=
  forall (t : tape) (pos : nat) (p : cell * cell),
    draw_perturbations t pos groups = Ok p -> cell_eqb (fst p) (snd p) = false.


(** Every cell of a feature column is a number. *)
Definition numeric_features (df : DataFrame) : Prop :=
  forall features,
    get_featuredata df = Ok features ->
    Forall (Forall (fun c => is_str c = false)) (values features).








Definition two_compounds : DataFrame :=
  {| columns := ["Metadata_pert_iname"; "Cells_Area"; "Cells_Intensity"; "Nuclei_Area"];
     index := [0%Z; 1%Z];
     values := [[Str "aspirin"; Num 1%float; Num 2%float; Num 4%float];
                [Str "taxol"; Num 3%float; Num 1%float; Num 2%float]] |}.

(** A generator that alternates between the two halves of the unit
    interval: [random()] returns 0, 1/2, 0, 1/2, ... *)
Definition alternating_tape : tape :=
  fun n => if Nat.even n then 0%Z else (2 ^ 52)%Z.

(** The feature columns of a table seen as an array of numbers: the
    positions of the columns [get_featurecols] lists, and the numbers found
    there in every row. *)
Definition feature_positions (df : DataFrame) : list nat :=
  map (fun c => match get_loc c (columns df) with
                | Some j => j
                | None => 0
                end) (get_featurecols df).

Definition float_of (c : cell) : float :=
  match c with
  | Num x => x
  | Str _ => nan
  end.




(** Stand-ins for the two library routines on the sample data: the
    decomposition of a diagonal matrix with a descending non-negative
    diagonal (identity factors, the diagonal as singular values), and a
    locator that reports the first point of the curve. *)
Definition identity_matrix (n : nat) : matrix :=
  diag_of_vector (repeat 1%float n).

Definition svd_of_diagonal (m : matrix) : result (matrix * list float * matrix) :=
  Ok (identity_matrix (ncols m), diag_of_matrix m, identity_matrix (ncols m)).

Definition elbow_at_first (x : list nat) (y : list float) : result (option nat) :=
  Ok (Some 0).

(** Four control wells with two features that vary independently. *)
Definition reference_wells : object_array :=
  {| ocols := 2;
     orows := [[Num 1%float; Num 0%float];
               [Num (-1)%float; Num 0%float];
               [Num 0%float; Num 2%float];
               [Num 0%float; Num (-2)%float]] |}.

Definition one_column : object_array :=
  {| ocols := 1; orows := [[Num 5%float]] |}.

Definition three_columns : object_array :=
  {| ocols := 3; orows := [[Num 5%float; Num 6%float; Num 7%float]] |}.

(** Every cell of an array is a number. *)
Definition numeric_array (a : object_array) : Prop :=
  Forall (Forall (fun c => is_str c = false)) (orows a).

(** [transform] read as refusing every matrix whose column count is not
    the fitted one. *)
Definition mismatch_refused (self : ZCA_corr) (fitted_columns : nat) : Prop :=
  forall X out, ocols X <> fitted_columns -> transform self X <> Ok out.

(** The number of features an array stored by [fit] is made for: the
    column count of a matrix, the length of a vector. *)
Definition width (a : ndarray) (d : nat) : Prop :=
  match a with
  | Arr2 m => ncols m = d
  | Arr1 v => length v = d
  | Arr0 _ => False
  end.

(** [X.mean(axis=0)] *)
Definition column_means (X : matrix) : list float :=
  map (fun j => mean (column j (mrows X))) (seq 0 (ncols X)).

(** The transformer fitted on [reference_wells]. *)
Definition fitted_on_reference : ZCA_corr :=
  fst (fit svd_of_diagonal elbow_at_first (ZCA_corr_init false) reference_wells).











(** The whitening matrix as the design document writes it, for a reference
    matrix [X] that passed validation:
    [G . diag(1/sqrt(clipped T)) . Gt . diag(1/sqrt(clipped V))], with [V]
    the per-feature variances of the centred data (divisor [n - 1], floor
    1e-3), [G] and [T] the basis and singular values of the decomposition of
    the Pearson correlation matrix of the centred data with NaN and infinite
    entries replaced by 0, and [T] floored at a tenth of the singular value
    at the elbow.  Undefined ([ValueError]) when no elbow is reported. *)
Definition zero_nonfinite (x : float) : float :=
  if is_nan x || PrimFloat.eqb x infinity || PrimFloat.eqb x neg_infinity then 0%float
  else x.

Definition centred_data (X : matrix) : matrix :=
  {| ncols := ncols X;
     mrows := map (fun r => map (fun p => (fst p - snd p)%float)
                                (combine r (column_means X)))
                  (mrows X) |}.

Definition feature_variance (centred : matrix) (j : nat) : float :=
  (inner (column j (mrows centred)) (column j (mrows centred))
   / of_nat (nrows centred - 1))%float.

Definition inverse_root_floored (floor : float) (x : float) : float :=
  (1 / sqrt (maximum x floor))%float.

Definition whitening
  (svd : matrix -> result (matrix * list float * matrix))
  (KneeLocator_elbow : list nat -> list float -> result (option nat))
  (X : matrix) : result matrix :=
  let centred := centred_data X in
  let V := map (feature_variance centred) (seq 0 (ncols X)) in
  let corr := map_matrix zero_nonfinite (DataFrame_corr centred) in
  GT_ <- svd corr ;;
  let G := fst (fst GT_) in
  let T := snd (fst GT_) in
  elbow <- KneeLocator_elbow (seq 0 (length T)) T ;;
  match elbow with
  | None => Raise ValueError
  | Some i =>
      match nth_error T i with
      | None => Raise IndexError
      | Some at_elbow =>
          let floor := (at_elbow / 10)%float in
          GD <- dot G (diag_of_vector (map (inverse_root_floored floor) T)) ;;
          GDGt <- dot GD (transpose G) ;;
          dot GDGt (diag_of_vector (map (inverse_root_floored 1e-3) V))
      end
  end.

(** [reference_wells] as an array of numbers, and the whitening matrix of
    it under the two stand-ins. *)
Definition reference_matrix : matrix :=
  {| ncols := 2;
     mrows := [[1; 0]; [-1; 0]; [0; 2]; [0; -2]]%float |}.

Definition reference_whitening : matrix :=
  {| ncols := 2;
     mrows := [[1.2247448713915889; 0]; [0; 0.61237243569579447]]%float |}.

(** The two arrays [sphere_plate_zca_corr] hands to the transformer: the
    feature columns of the control wells (control type "negcon", found at
    column [jc]) and those of the whole plate. *)
Definition feature_cells (plate : DataFrame) (rows : list (list cell)) : object_array :=
  {| ocols := length (get_featurecols plate);
     orows := map (fun row => map (fun j => cell_at j row) (feature_positions plate)) rows |}.

Definition control_features (plate : DataFrame) (jc : nat) : object_array :=
  feature_cells plate (filter (is_negcon jc) (values plate)).

Definition plate_features (plate : DataFrame) : object_array :=
  feature_cells plate (values plate).

(** The shape of the array a successful [fit] stores for [d] features: a
    [d x d] matrix, or, when no elbow was found and there is one feature, a
    vector of one entry. *)
Definition fitted_shape (W : ndarray) (d : nat) : Prop :=
  match W with
  | Arr2 w => nrows w = d /\ ncols w = d
  | Arr1 v => length v = d /\ d <= 1
  | Arr0 _ => False
  end.

(** A plate with eight wells, four of them controls, two features. *)
Definition plate_of_eight : DataFrame :=
  {| columns := ["Metadata_Well"; "Metadata_control_type"; "Cells_Area"; "Nuclei_Area"];
     index := [0%Z; 1%Z; 2%Z; 3%Z; 4%Z; 5%Z; 6%Z; 7%Z];
     values := [[Str "A01"; Str "negcon"; Num 1%float; Num 0%float];
                [Str "A02"; Str "negcon"; Num (-1)%float; Num 0%float];
                [Str "A03"; Str "negcon"; Num 0%float; Num 2%float];
                [Str "A04"; Str "negcon"; Num 0%float; Num (-2)%float];
                [Str "B01"; Num nan; Num 3%float; Num 1%float];
                [Str "B02"; Num nan; Num 3%float; Num 2%float];
                [Str "B03"; Num nan; Num 5%float; Num (-1)%float];
                [Str "B04"; Num nan; Num 4%float; Num 4%float]] |}.

(** A plate whose control well lacks one measurement. *)
Definition plate_with_missing_value : DataFrame :=
  {| columns := ["Metadata_Well"; "Metadata_control_type"; "Cells_Area"; "Nuclei_Area"];
     index := [0%Z; 1%Z; 2%Z];
     values := [[Str "A01"; Str "negcon"; Num 1%float; Num nan];
                [Str "A02"; Str "negcon"; Num 2%float; Num 1%float];
                [Str "B01"; Num nan; Num 3%float; Num 1%float]] |}.

(** [sphere_plate_zca_corr] read as returning, for every plate that has a
    control well, a table of the shape, labels and columns of the plate. *)
Definition sphere_plate_always_returns (plate : DataFrame) : Prop :=
  forall svd KneeLocator_elbow jc,
    get_loc "Metadata_control_type" (columns plate) = Some jc ->
    (exists row, In row (values plate) /\ is_negcon jc row = true) ->
    exists combined,
      sphere_plate_zca_corr svd KneeLocator_elbow plate = Ok combined /\
      shape combined = shape plate /\
      index combined = index plate.

(** The positions of the columns [get_metacols] lists, and the metadata
    columns as [get_metadata] returns them. *)
Definition metadata_positions (df : DataFrame) : list nat :=
  map (fun c => match get_loc c (columns df) with
                | Some j => j
                | None => 0
                end) (get_metacols df).

Definition metadata_of (df : DataFrame) : DataFrame :=
  {| columns := get_metacols df;
     index := index df;
     values := map (fun row => map (fun j => cell_at j row) (metadata_positions df))
                   (values df) |}.

(** The transformer fitted on the control wells of [plate_of_eight]. *)
Definition fitted_on_plate : ZCA_corr :=
  fst (fit svd_of_diagonal elbow_at_first (ZCA_corr_init false)
         (control_features plate_of_eight 1)).





(** A table without rows. *)
Definition no_wells : DataFrame :=
  {| columns := ["Metadata_pert_iname"; "Cells_Area"; "Cells_Intensity"];
     index := [];
     values := [] |}.




(** An array [check_array] cannot accept: one that holds a number that is
    NaN or infinite. *)
Definition has_nonfinite (a : object_array) : Prop :=
  exists row x, In row (orows a) /\ In (Num x) row /\ is_finite x = false.

(** Stand-ins for a decomposition that does not converge and for a curve
    on which no elbow is found. *)
Definition svd_not_converging (m : matrix) : result (matrix * list float * matrix) :=
  Raise LinAlgError.

Definition no_elbow (x : list nat) (y : list float) : result (option nat) :=
  Ok None.

Definition no_rows : object_array :=
  {| ocols := 2; orows := [] |}.

Definition two_wells : object_array :=
  {| ocols := 2;
     orows := [[Num 3%float; Num 1%float];
               [Num 5%float; Num (-1)%float]] |}.

(** A plate on which no well is a negative control. *)
Definition plate_without_controls : DataFrame :=
  {| columns := ["Metadata_Well"; "Metadata_control_type"; "Cells_Area"; "Nuclei_Area"];
     index := [0%Z; 1%Z];
     values := [[Str "A01"; Str "poscon"; Num 1%float; Num 0%float];
                [Str "A02"; Num nan; Num 3%float; Num 2%float]] |}.

Definition plate_without_control_column : DataFrame :=
  {| columns := ["Metadata_Well"; "Cells_Area"; "Nuclei_Area"];
     index := [0%Z; 1%Z];
     values := [[Str "A01"; Num 1%float; Num 0%float];
                [Str "A02"; Num 3%float; Num 2%float]] |}.

(** A plate of six wells: four controls (one of them carrying a sample
    label), one treated well and one empty well. *)
Definition plate_of_six : DataFrame :=
  {| columns := ["Metadata_control_type"; "Cells_Area"; "Metadata_broad_sample";
                 "Nuclei_Area"];
     index := [0%Z; 1%Z; 2%Z; 3%Z; 4%Z; 5%Z];
     values := [[Str "negcon"; Num 1%float; Str "DMSO"; Num 0%float];
                [Str "negcon"; Num (-1)%float; Num nan; Num 0%float];
                [Str "negcon"; Num 0%float; Num nan; Num 2%float];
                [Str "negcon"; Num 0%float; Num nan; Num (-2)%float];
                [Num nan; Num 3%float; Str "BRD-K0001"; Num 1%float];
                [Num nan; Num 5%float; Num nan; Num (-1)%float]] |}.

(** [df[c] = col] for a label the table does not have yet: one more
    column on the right. *)
Definition with_column (df : DataFrame) (c : string) (col : list cell) : DataFrame :=
  {| columns := columns df ++ [c];
     index := index df;
     values := map (fun p => fst p ++ [snd p]) (combine (values df) col) |}.

(** [fit] read as storing, on a given reference array, the whitening
    matrix of the design document. *)
Definition stores_whitening
  (svd : matrix -> result (matrix * list float * matrix))
  (KneeLocator_elbow : list nat -> list float -> result (option nat))
  (Xref : object_array) : Prop :=
  exists X W,
    check_array Xref = Ok X /\
    whitening svd KneeLocator_elbow X = Ok W /\
    sphere_ (fst (fit svd KneeLocator_elbow (ZCA_corr_init false) Xref)) = Some (Arr2 W).

(** Three reference wells, one of them with a missing measurement. *)
Definition reference_with_missing_value : object_array :=
  {| ocols := 2;
     orows := [[Num 1%float; Num nan];
               [Num 2%float; Num 1%float];
               [Num 3%float; Num 0%float]] |}.

(** * Properties *)

(** ** Lists, masks and lookups *)

Lemma mask_filter_map {A : Type} (f : A -> bool) (l : list A) :
  mask_filter (map f l) l = filter f l.
Proof.
  induction l as [|a l IH]; simpl; [reflexivity|].
  rewrite IH. reflexivity.
Qed.

Lemma filter_filter {A : Type} (f g : A -> bool) (l : list A) :
  filter g (filter f l) = filter (fun a => f a && g a) l.
Proof.
  induction l as [|a l IH]; simpl; [reflexivity|].
  destruct (f a); simpl; [destruct (g a)|]; rewrite IH; reflexivity.
Qed.

Lemma prefix_Metadata_underscore (c : string) :
  String.prefix "Metadata_" c = true -> String.prefix "Metadata" c = true.
Proof.
  do 8 (destruct c as [|? c]; simpl; [discriminate|];
        match goal with
        | |- (if ?b then _ else _) = true -> (if ?b then _ else _) = true => destruct b
        end; [|discriminate]).
  intros _. destruct c; reflexivity.
Qed.

(** ** Feature / metadata accessor *)

Lemma accessors_disjoint (df : DataFrame) (c : string) :
  ~ (In c (get_metacols df) /\ In c (get_featurecols df)).
Proof.
  unfold get_metacols, get_featurecols. intros [Hm Hf].
  apply filter_In in Hm as [_ Hm]. apply filter_In in Hf as [_ Hf].
  apply prefix_Metadata_underscore in Hm. rewrite Hm in Hf. discriminate.
Qed.

Lemma accessors_cover (df : DataFrame) :
  partitioned df -> accessors_partition df.
Proof.
  intros Hp. split; [apply accessors_disjoint|].
  intros c. unfold get_metacols, get_featurecols. rewrite !filter_In. split.
  - intros Hin. destruct (String.prefix "Metadata" c) eqn:E.
    + left. split; [assumption|]. apply Hp; assumption.
    + right. split; [assumption|reflexivity].
  - intros [[H _]|[H _]]; exact H.
Qed.

(** C9, evaluated on a plate with a column named "MetadataWell": the label
    is a column of the table, yet it is neither in the list of metadata
    columns nor in the list of feature columns, so the accessors do not
    partition the columns of this table. *)
Theorem accessors_drop_stray_label :
  In "MetadataWell" (columns plate_with_stray_label) /\
  get_metacols plate_with_stray_label = ["Metadata_control_type"] /\
  get_featurecols plate_with_stray_label = ["Cells_AreaShape_Area"] /\
  ~ accessors_partition plate_with_stray_label.
Proof.
  split; [simpl; tauto|]. split; [reflexivity|]. split; [reflexivity|].
  intros [_ Hcover].
  destruct (proj1 (Hcover "MetadataWell")) as [H|H].
  - simpl; tauto.
  - cbv in H. destruct H as [H|[]]. discriminate.
  - cbv in H. destruct H as [H|[]]. discriminate.
Qed.

(** ** The well filter *)





(** ** Percent score *)

(** C7: with [how = "both"] the score is the sum of the score of
    [how = "right"] and the score of [how = "left"] on the same inputs, and
    the two thresholds are those of the two modes: the 95th and the 5th
    NaN-ignoring percentile of the null distribution. *)
Theorem percent_score_both (null_dist corr_dist : list float) :
  exists right_score right_threshold left_score left_threshold,
    percent_score null_dist corr_dist "right" = Tuple2 right_score right_threshold /\
    percent_score null_dist corr_dist "left" = Tuple2 left_score left_threshold /\
    percent_score null_dist corr_dist "both"
    = Tuple3 (right_score + left_score)%float right_threshold left_threshold /\
    right_threshold = nanpercentile null_dist 95 /\
    left_threshold = nanpercentile null_dist 5.
Proof.
  unfold percent_score. simpl String.eqb. cbv iota.
  do 4 eexists. repeat split; reflexivity.
Qed.

(** C10: a mode other than "left", "right" and "both" falls through the
    three tests and the call returns [None]. *)
Theorem percent_score_other_mode (null_dist corr_dist : list float) (how : string) :
  how <> "right" -> how <> "left" -> how <> "both" ->
  percent_score null_dist corr_dist how = PyNone.
Proof.
  intros Hr Hl Hb. unfold percent_score.
  apply String.eqb_neq in Hr, Hl, Hb. rewrite Hr, Hl, Hb. reflexivity.
Qed.

Lemma percent_score_other_mode_witness :
  "two-sided" <> "right" /\ "two-sided" <> "left" /\ "two-sided" <> "both" /\
  percent_score [0.1; 0.2; 0.3]%float [0.5]%float "two-sided" = PyNone.
Proof.
  split; [discriminate|]. split; [discriminate|]. split; [discriminate|].
  apply percent_score_other_mode; discriminate.
Defined.

(** ** The cross-modality null sampler *)

Lemma choices_indices_repeat (t : tape) (pos n : nat) :
  t pos = t (S pos) ->
  exists i, choices_indices t pos n 2 = [i; i].
Proof.
  intros H. simpl. unfold random. rewrite H. eexists. reflexivity.
Qed.

(** When the generator returns the same number twice in a row, both
    selections are driven by the same common key. *)
Lemma draw_perturbations_repeat (t : tape) (pos : nat) (groups : list cell)
  (p : cell * cell) :
  t pos = t (S pos) ->
  draw_perturbations t pos groups = Ok p -> fst p = snd p.
Proof.
  intros Heq. unfold draw_perturbations, choices.
  destruct (choices_indices_repeat t pos (length groups) Heq) as [i ->].
  simpl. destruct (nth_error groups i); simpl; [|discriminate].
  intros H. injection H as <-. reflexivity.
Qed.

(** C1, evaluated on two modalities that share the genes EGFR and TP53 with
    a generator that returns the same number twice: both selections are
    driven by EGFR, and the one value of the null distribution is the
    correlation of the matched EGFR pair, the first value of the matched
    distribution; the sampler does not draw distinct keys. *)
Theorem null_sampler_draws_same_key :
  draw_perturbations constant_tape 0 [Str "EGFR"; Str "TP53"]
  = Ok (Str "EGFR", Str "EGFR") /\
  null_correlation_between_modalities constant_tape 0
    compound_profiles crispr_profiles "Compounds" "CRISPR"
    "Metadata_genes" "Metadata_broad_sample" 1
  = Ok ([1%float], 2) /\
  correlation_between_modalities
    compound_profiles crispr_profiles "Compounds" "CRISPR"
    "Metadata_genes" "Metadata_broad_sample"
  = Ok [1%float; 1%float] /\
  ~ draws_distinct_keys [Str "EGFR"; Str "TP53"].
Proof.
  split; [vm_compute; reflexivity|].
  split; [vm_compute; reflexivity|].
  split; [vm_compute; reflexivity|].
  intros H.
  specialize (H constant_tape 0 (Str "EGFR", Str "EGFR")).
  assert (E : draw_perturbations constant_tape 0 [Str "EGFR"; Str "TP53"]
              = Ok (Str "EGFR", Str "EGFR")) by (vm_compute; reflexivity).
  specialize (H E). vm_compute in H. discriminate.
Qed.

(** ** Lookups that cannot fail *)

Lemma bind_ok {A B : Type} (r : result A) (k : A -> result B) (b : B) :
  bind r k = Ok b -> exists a, r = Ok a /\ k a = Ok b.
Proof.
  destruct r as [a|e]; simpl; [|discriminate]. intros H. exists a. split; [reflexivity|exact H].
Qed.

Lemma mapM_ok {A B : Type} (f : A -> result B) (g : A -> B) (l : list A) :
  (forall a, In a l -> f a = Ok (g a)) -> mapM f l = Ok (map g l).
Proof.
  induction l as [|a l IH]; intros H; simpl; [reflexivity|].
  rewrite (H a (or_introl eq_refl)). simpl.
  rewrite IH; [reflexivity|]. intros b Hb. apply H. right. exact Hb.
Qed.

Lemma mapM_length {A B : Type} (f : A -> result B) (l : list A) (l' : list B) :
  mapM f l = Ok l' -> length l' = length l.
Proof.
  revert l'. induction l as [|a l IH]; simpl; intros l' H.
  - injection H as <-. reflexivity.
  - apply bind_ok in H as [b [_ H]]. apply bind_ok in H as [bs [Hbs H]].
    injection H as <-. simpl. f_equal. apply IH. exact Hbs.
Qed.

Lemma get_loc_In (c : string) (cols : list string) :
  In c cols -> exists j, get_loc c cols = Some j.
Proof.
  induction cols as [|c' cols IH]; simpl; [tauto|].
  intros H. destruct (String.eqb c c') eqn:E; [eexists; reflexivity|].
  destruct H as [H|H].
  - subst c'. rewrite String.eqb_refl in E. discriminate.
  - destruct (IH H) as [j ->]. eexists. reflexivity.
Qed.

Lemma get_loc_lt (c : string) (cols : list string) (j : nat) :
  get_loc c cols = Some j -> j < length cols /\ nth j cols ""%string = c.
Proof.
  revert j. induction cols as [|c' cols IH]; simpl; intros j H; [discriminate|].
  destruct (String.eqb c c') eqn:E.
  - injection H as <-. apply String.eqb_eq in E. split; [lia|congruence].
  - destruct (get_loc c cols) as [j'|]; simpl in H; [|discriminate].
    injection H as <-. destruct (IH j' eq_refl). split; [lia|assumption].
Qed.

(** Selecting columns of the table itself succeeds. *)
Lemma getitems_own_columns (df : DataFrame) (cols : list string) :
  (forall c, In c cols -> In c (columns df)) ->
  getitems df cols
  = Ok {| columns := cols;
          index := index df;
          values := map (fun row =>
                           map (fun j => cell_at j row)
                               (map (fun c => match get_loc c (columns df) with
                                              | Some j => j
                                              | None => 0
                                              end) cols))
                        (values df) |}.
Proof.
  intros H. unfold getitems.
  rewrite (mapM_ok _ (fun c => match get_loc c (columns df) with
                               | Some j => j
                               | None => 0
                               end)).
  - reflexivity.
  - intros c Hc. destruct (get_loc_In c (columns df) (H c Hc)) as [j ->]. reflexivity.
Qed.

Lemma get_featuredata_total (df : DataFrame) :
  get_featuredata df
  = Ok {| columns := get_featurecols df;
          index := index df;
          values := map (fun row => map (fun j => cell_at j row) (feature_positions df))
                        (values df) |}.
Proof.
  unfold get_featuredata. rewrite getitems_own_columns; [reflexivity|].
  intros c Hc. unfold get_featurecols in Hc. apply filter_In in Hc. tauto.
Qed.

Lemma get_metadata_total (df : DataFrame) :
  get_metadata df
  = Ok {| columns := get_metacols df;
          index := index df;
          values := map (fun row =>
                           map (fun j => cell_at j row)
                               (map (fun c => match get_loc c (columns df) with
                                              | Some j => j
                                              | None => 0
                                              end) (get_metacols df)))
                        (values df) |}.
Proof.
  unfold get_metadata. rewrite getitems_own_columns; [reflexivity|].
  intros c Hc. unfold get_metacols in Hc. apply filter_In in Hc. tauto.
Qed.

Lemma to_float_numeric (e : exn) (row : list cell) :
  Forall (fun c => is_str c = false) row ->
  mapM (to_float e) row = Ok (map float_of row).
Proof.
  intros H. apply mapM_ok. intros c Hc.
  rewrite Forall_forall in H. specialize (H c Hc).
  destruct c; [discriminate|reflexivity].
Qed.


(** ** Distinct values *)







(** ** The single-modality null sampler *)













(** The loop returns a list of exactly [n_samples] values, whenever it
    returns. *)
Lemma non_replicates_loop_length (fuel : nat) (t : tape) (pos : nat) (df : DataFrame)
  (n_samples k : nat) (key : string) (acc l : list float) (pos' : nat) :
  length acc <= n_samples ->
  non_replicates_loop fuel t pos df n_samples k key acc = Some (Ok (l, pos')) ->
  length l = n_samples.
Proof.
  revert pos acc. induction fuel as [|fuel IH]; intros pos acc Hacc; simpl.
  - destruct (Nat.ltb (length acc) n_samples) eqn:E; [discriminate|].
    intros H. injection H as <- _. apply Nat.ltb_ge in E. lia.
  - destruct (Nat.ltb (length acc) n_samples) eqn:E.
    + apply Nat.ltb_lt in E.
      destruct (non_replicates_draw t pos df k key) as [[c|]|e]; [| |discriminate].
      * apply IH. rewrite length_app. simpl. lia.
      * apply IH. exact Hacc.
    + intros H. injection H as <- _. apply Nat.ltb_ge in E. lia.
Qed.









(** ** The sphering transformer: what a successful [fit] leaves behind *)

Section FitFacts.

Variable svd : matrix -> result (matrix * list float * matrix).
Variable KneeLocator_elbow : list nat -> list float -> result (option nat).

Lemma check_array_shape (X : object_array) (Xf : matrix) :
  check_array X = Ok Xf ->
  ncols Xf = ocols X /\ 1 <= ncols Xf /\ 1 <= nrows Xf.
Proof.
  unfold check_array, astype_float64. intros H.
  apply bind_ok in H as [X' [HX' H]]. apply bind_ok in HX' as [rows [_ HX']].
  injection HX' as <-. simpl in H.
  destruct (forallb _ rows); [|discriminate].
  destruct (Nat.ltb (nrows _) 1) eqn:E1; [discriminate|].
  destruct (Nat.ltb (ocols X) 1) eqn:E2; [discriminate|].
  injection H as <-. apply Nat.ltb_ge in E1, E2. simpl in *. auto.
Qed.

Lemma fit_returns (self st : ZCA_corr) (X : object_array) :
  fit svd KneeLocator_elbow self X = (st, Ok tt) ->
  exists Xf W,
    check_array X = Ok Xf /\
    fit_sphere svd KneeLocator_elbow Xf (column_means Xf) = Ok W /\
    st = {| copy := copy self; mean_ := Some (column_means Xf); sphere_ := Some W |}.
Proof.
  unfold fit. destruct (check_array X) as [Xf|e]; [|discriminate].
  fold (column_means Xf).
  destruct (fit_sphere svd KneeLocator_elbow Xf (column_means Xf)) as [W|e] eqn:E;
    [|discriminate].
  intros H. injection H as <-. exists Xf, W.
  split; [reflexivity|]. split; [exact E|reflexivity].
Qed.

Lemma column_means_length (X : matrix) : length (column_means X) = ncols X.
Proof. unfold column_means. rewrite length_map, length_seq. reflexivity. Qed.

Lemma dot_shape (a b m : matrix) :
  dot a b = Ok m -> ncols a = nrows b /\ ncols m = ncols b /\ nrows m = nrows a.
Proof.
  unfold dot. destruct (Nat.eqb (ncols a) (nrows b)) eqn:E; [|discriminate].
  intros H. injection H as <-. apply Nat.eqb_eq in E.
  unfold nrows in *. simpl. rewrite length_map. auto.
Qed.

Lemma transpose_shape (m : matrix) :
  nrows (transpose m) = ncols m /\ ncols (transpose m) = nrows m.
Proof.
  unfold transpose, nrows. simpl. rewrite length_map, length_seq. auto.
Qed.

Lemma diag_of_vector_shape (v : list float) :
  nrows (diag_of_vector v) = length v /\ ncols (diag_of_vector v) = length v.
Proof.
  unfold diag_of_vector, nrows. simpl. rewrite length_map, length_seq. auto.
Qed.

Lemma diag_of_matrix_length (m : matrix) :
  length (diag_of_matrix m) = Nat.min (nrows m) (ncols m).
Proof. unfold diag_of_matrix. rewrite length_map, length_seq. reflexivity. Qed.

(** The per-feature variances [V] of [fit]: one per column. *)
Lemma variances_length (X_ xtx : matrix) (f : float -> float) :
  dot (transpose X_) X_ = Ok xtx ->
  length (diag_of_matrix (map_matrix f xtx)) = ncols X_.
Proof.
  intros H. apply dot_shape in H as [_ [Hc Hr]].
  rewrite diag_of_matrix_length. unfold nrows, map_matrix in *. simpl.
  rewrite length_map. destruct (transpose_shape X_) as [Ht _].
  unfold nrows in Ht. lia.
Qed.

Lemma dot_nd_right_matrix (a : ndarray) (b : matrix) (W : ndarray) :
  dot_nd a (Arr2 b) = Ok W -> width W (ncols b).
Proof.
  destruct a as [x|v|m]; simpl.
  - intros H. injection H as <-. reflexivity.
  - destruct (Nat.eqb (length v) (nrows b)); [|discriminate].
    intros H. injection H as <-. simpl. rewrite length_map, length_seq. reflexivity.
  - intros H. apply bind_ok in H as [m' [Hm H]]. injection H as <-.
    apply dot_shape in Hm. simpl. tauto.
Qed.

(** The sphereing matrix has one column per feature of the reference. *)
Lemma fit_sphere_width (X : matrix) (W : ndarray) :
  fit_sphere svd KneeLocator_elbow X (column_means X) = Ok W ->
  width W (ncols X).
Proof.
  unfold fit_sphere. intros H.
  apply bind_ok in H as [X_ [HX_ H]].
  apply bind_ok in H as [xtx [Hxtx H]].
  apply bind_ok in H as [GT_ [_ H]].
  apply bind_ok in H as [reg [_ H]].
  apply bind_ok in H as [clipped [_ H]].
  apply bind_ok in H as [t_inv [_ H]].
  apply bind_ok in H as [GtI [_ H]].
  apply bind_ok in H as [GtIGt [_ H]].
  apply dot_nd_right_matrix in H.
  destruct (diag_of_vector_shape
              (map (fun v => (1 / sqrt (maximum v 1e-3))%float)
                   (diag_of_matrix
                      (map_matrix (fun c => (c / of_nat (nrows X_ - 1))%float) xtx))))
    as [_ Hc].
  rewrite Hc, length_map, (variances_length X_ xtx _ Hxtx) in H.
  unfold broadcast_sub in HX_. rewrite column_means_length, Nat.eqb_refl in HX_.
  injection HX_ as <-. exact H.
Qed.

End FitFacts.

(** ** The sphering transformer: [transform] *)

Lemma mapM_raise {A B : Type} (f : A -> result B) (e e' : exn) (l : list A) :
  (forall a e'', f a = Raise e'' -> e'' = e) ->
  mapM f l = Raise e' -> e' = e.
Proof.
  intros Hf. induction l as [|a l IH]; simpl; [discriminate|].
  destruct (f a) as [b|e''] eqn:E; simpl.
  - destruct (mapM f l) as [bs|e3]; simpl; [discriminate|].
    intros H. injection H as <-. apply IH. reflexivity.
  - intros H. injection H as <-. apply (Hf a). exact E.
Qed.

Lemma to_float_raise (e e' : exn) (c : cell) :
  to_float e c = Raise e' -> e' = e.
Proof.
  destruct c; simpl; intros H; [injection H as <-; reflexivity|discriminate].
Qed.

Lemma astype_float64_raise (e e' : exn) (a : object_array) :
  astype_float64 e a = Raise e' -> e' = e.
Proof.
  unfold astype_float64.
  destruct (mapM (mapM (to_float e)) (orows a)) as [rows|e''] eqn:E; simpl; [discriminate|].
  intros H. injection H as <-.
  apply (mapM_raise (mapM (to_float e)) e e'' (orows a)); [|exact E].
  intros row e3. apply mapM_raise. intros c e4. apply to_float_raise.
Qed.

Lemma astype_float64_numeric (e : exn) (a : object_array) :
  numeric_array a ->
  astype_float64 e a = Ok {| ncols := ocols a; mrows := map (map float_of) (orows a) |}.
Proof.
  intros H. unfold astype_float64.
  rewrite (mapM_ok _ (map float_of)); [reflexivity|].
  intros row Hrow. apply to_float_numeric.
  unfold numeric_array in H. rewrite Forall_forall in H. apply H. exact Hrow.
Qed.

Lemma astype_float64_ncols (e : exn) (a : object_array) (X : matrix) :
  astype_float64 e a = Ok X -> ncols X = ocols a.
Proof.
  unfold astype_float64. intros H. apply bind_ok in H as [rows [_ H]].
  injection H as <-. reflexivity.
Qed.

Lemma broadcast_sub_one_column (a : matrix) (v : list float) :
  ncols a = 1 ->
  exists c, broadcast_sub a v = Ok c /\ ncols c = length v.
Proof.
  intros H. unfold broadcast_sub. rewrite H.
  destruct (Nat.eqb 1 (length v)) eqn:E.
  - apply Nat.eqb_eq in E. eexists. split; [reflexivity|exact E].
  - destruct (Nat.eqb (length v) 1) eqn:E'.
    + apply Nat.eqb_eq in E'. apply Nat.eqb_neq in E. congruence.
    + eexists. split; reflexivity.
Qed.

Lemma broadcast_sub_mismatch (a : matrix) (v : list float) :
  ncols a <> length v -> ncols a <> 1 ->
  (length v = 1 /\ exists c, broadcast_sub a v = Ok c /\ ncols c = ncols a) \/
  (length v <> 1 /\ broadcast_sub a v = Raise ValueError).
Proof.
  intros H H1. unfold broadcast_sub.
  apply Nat.eqb_neq in H, H1. rewrite H, H1.
  destruct (Nat.eqb (length v) 1) eqn:E.
  - left. apply Nat.eqb_eq in E. split; [exact E|]. eexists. split; reflexivity.
  - right. apply Nat.eqb_neq in E. split; [exact E|reflexivity].
Qed.

(** [np.dot] of a 2-D array with the transposed sphereing array succeeds
    exactly when the column count is that of the sphereing array. *)
Lemma dot_sphere (centred : matrix) (W : ndarray) (d : nat) :
  width W d ->
  (ncols centred = d -> exists out, dot_nd (Arr2 centred) (transpose_nd W) = Ok out) /\
  (ncols centred <> d -> dot_nd (Arr2 centred) (transpose_nd W) = Raise ValueError).
Proof.
  destruct W as [x|v|m]; simpl; [contradiction| |]; intros Hw.
  - split; intros H.
    + rewrite H, Hw, Nat.eqb_refl. eexists. reflexivity.
    + rewrite Hw. apply Nat.eqb_neq in H. rewrite H. reflexivity.
  - unfold dot. destruct (transpose_shape m) as [-> _]. rewrite Hw. split; intros H.
    + rewrite H, Nat.eqb_refl. simpl. eexists. reflexivity.
    + apply Nat.eqb_neq in H. rewrite H. reflexivity.
Qed.

(** C8, as amended: [transform] on a transformer that was never fitted
    raises the "not fitted" error; on a fitted transformer, a matrix whose
    column count is neither the fitted one nor 1 raises a [ValueError],
    while a matrix of numbers with exactly one column is broadcast against
    the fitted mean and a value is returned. *)
Theorem transform_refusals
  (svd : matrix -> result (matrix * list float * matrix))
  (KneeLocator_elbow : list nat -> list float -> result (option nat))
  (copy : bool) (Xref X : object_array) (st : ZCA_corr) :
  fit svd KneeLocator_elbow (ZCA_corr_init copy) Xref = (st, Ok tt) ->
  transform (ZCA_corr_init copy) X = Raise NotFittedError /\
  (ocols X <> ocols Xref -> ocols X <> 1 -> transform st X = Raise ValueError) /\
  (ocols X = 1 -> numeric_array X -> exists out, transform st X = Ok out).
Proof.
  intros Hfit. split; [reflexivity|].
  apply fit_returns in Hfit as [Xf [W [Hcheck [Hsphere ->]]]].
  apply check_array_shape in Hcheck as [Hd _].
  apply fit_sphere_width in Hsphere. rewrite Hd in Hsphere.
  pose proof (column_means_length Xf) as Hm. rewrite Hd in Hm.
  unfold transform, as_float_array. simpl mean_. simpl sphere_. split.
  - intros Hne Hne1.
    destruct (astype_float64 ValueError X) as [X'|e] eqn:EX.
    + apply astype_float64_ncols in EX. simpl bind.
      destruct (broadcast_sub_mismatch X' (column_means Xf)) as [[H1 [c [-> Hc]]]|[_ ->]];
        [rewrite EX, Hm; exact Hne|rewrite EX; exact Hne1| |reflexivity].
      simpl bind. apply (dot_sphere c W (ocols Xref) Hsphere). congruence.
    + apply astype_float64_raise in EX. subst e. reflexivity.
  - intros H1 Hnum. rewrite (astype_float64_numeric _ _ Hnum). simpl bind.
    destruct (broadcast_sub_one_column
                {| ncols := ocols X; mrows := map (map float_of) (orows X) |}
                (column_means Xf) H1) as [c [-> Hc]].
    simpl bind. apply (dot_sphere c W (ocols Xref) Hsphere). congruence.
Qed.

Lemma transform_refusals_witness :
  fit svd_of_diagonal elbow_at_first (ZCA_corr_init false) reference_wells
  = (fitted_on_reference, Ok tt) /\
  transform (ZCA_corr_init false) three_columns = Raise NotFittedError /\
  (ocols three_columns <> ocols reference_wells -> ocols three_columns <> 1 ->
   transform fitted_on_reference three_columns = Raise ValueError) /\
  (ocols three_columns = 1 -> numeric_array three_columns ->
   exists out, transform fitted_on_reference three_columns = Ok out).
Proof.
  split; [vm_compute; reflexivity|].
  apply (transform_refusals svd_of_diagonal elbow_at_first false reference_wells
           three_columns fitted_on_reference).
  vm_compute. reflexivity.
Defined.

(** C8 as stated fails for a matrix with one column: the transformer
    fitted on two features broadcasts the column against the two means and
    returns a 1 x 2 result instead of raising. *)
Lemma transform_broadcasts_one_column :
  fit svd_of_diagonal elbow_at_first (ZCA_corr_init false) reference_wells
  = (fitted_on_reference, Ok tt) /\
  ocols reference_wells = 2 /\
  ocols one_column = 1 /\
  transform fitted_on_reference one_column
  = Ok (Arr2 {| ncols := 2;
                mrows := [[6.1237243569579451; 3.0618621784789726]%float] |}) /\
  ~ mismatch_refused fitted_on_reference 2.
Proof.
  split; [vm_compute; reflexivity|].
  split; [reflexivity|]. split; [reflexivity|].
  split; [vm_compute; reflexivity|].
  intros H.
  apply (H one_column
           (Arr2 {| ncols := 2;
                    mrows := [[6.1237243569579451; 3.0618621784789726]%float] |})).
  - simpl. lia.
  - vm_compute. reflexivity.
Qed.

(** ** Replicate correlation *)










(** *** A group of identical rows *)

Lemma map_all_same {A B : Type} (f : A -> B) (y : B) (l : list A) :
  (forall x, In x l -> f x = y) -> map f l = repeat y (length l).
Proof.
  induction l as [|a l IH]; intros H; simpl; [reflexivity|].
  rewrite (H a (or_introl eq_refl)), IH; [reflexivity|].
  intros x Hx. apply H. right. exact Hx.
Qed.




















(** ** The sphering transformer: the matrix [fit] stores *)

(** A correlation coefficient is NaN or lies in [-1, 1]: it is never
    infinite, so [np.nan_to_num] only ever replaces a NaN, by 0. *)
Lemma not_above_one_finite (v : float) :
  PrimFloat.ltb 1 v = false -> PrimFloat.eqb v infinity = false.
Proof.
  rewrite ltb_spec, eqb_spec.
  change (Prim2SF infinity) with (S754_infinity false).
  change (Prim2SF 1) with (S754_finite false 4503599627370496 (-52)).
  destruct (Prim2SF v) as [s|[|]| |s m e]; intros H; try reflexivity.
  discriminate H.
Qed.

Lemma not_below_minus_one_finite (v : float) :
  PrimFloat.ltb v (-1) = false -> PrimFloat.eqb v neg_infinity = false.
Proof.
  rewrite ltb_spec, eqb_spec.
  change (Prim2SF neg_infinity) with (S754_infinity true).
  change (Prim2SF (-1)) with (S754_finite true 4503599627370496 (-52)).
  destruct (Prim2SF v) as [s|[|]| |s m e]; intros H; try reflexivity.
  discriminate H.
Qed.

Lemma nan_to_num_pearson (x y : list float) :
  nan_to_num (pearson x y) = zero_nonfinite (pearson x y).
Proof.
  unfold pearson.
  destruct (Nat.ltb _ 1); [reflexivity|].
  destruct (PrimFloat.eqb _ 0); [reflexivity|].
  unfold clip_coefficient.
  destruct (PrimFloat.ltb 1 _) eqn:E1; [reflexivity|].
  destruct (PrimFloat.ltb _ (-1)) eqn:E2; [reflexivity|].
  unfold nan_to_num, zero_nonfinite.
  rewrite (not_above_one_finite _ E1), (not_below_minus_one_finite _ E2).
  destruct (is_nan _); reflexivity.
Qed.

Lemma nan_to_num_corr (X : matrix) :
  map_matrix nan_to_num (DataFrame_corr X) = map_matrix zero_nonfinite (DataFrame_corr X).
Proof.
  unfold map_matrix, DataFrame_corr. simpl. f_equal.
  rewrite !map_map. apply map_ext. intros i.
  rewrite !map_map. apply map_ext. intros j. apply nan_to_num_pearson.
Qed.

Lemma nth_map_seq {A : Type} (g : nat -> A) (n i : nat) (d : A) :
  i < n -> nth i (map g (seq 0 n)) d = g i.
Proof.
  intros H. rewrite (nth_indep _ d (g 0)) by (rewrite length_map, length_seq; exact H).
  rewrite (map_nth g (seq 0 n) 0 i), seq_nth by exact H. reflexivity.
Qed.

(** The diagonal of [np.dot(X_.T, X_) / (n - 1)] holds, for every feature,
    the sum of the squares of its centred values over [n - 1]. *)
Lemma covariance_diagonal (X_ xtx : matrix) :
  dot (transpose X_) X_ = Ok xtx ->
  diag_of_matrix (map_matrix (fun c => (c / of_nat (nrows X_ - 1))%float) xtx)
  = map (feature_variance X_) (seq 0 (ncols X_)).
Proof.
  unfold dot. destruct (Nat.eqb _ _); [|discriminate].
  intros H. injection H as <-.
  unfold diag_of_matrix, map_matrix, nrows. simpl.
  rewrite !length_map, length_seq, Nat.min_id.
  apply map_ext_in. intros i Hi. apply in_seq in Hi.
  rewrite !map_map, (nth_map_seq _ (ncols X_) i []) by lia.
  rewrite map_map, (nth_map_seq _ (ncols X_) i nan) by lia.
  reflexivity.
Qed.

Lemma centred_data_broadcast (X : matrix) :
  broadcast_sub X (column_means X) = Ok (centred_data X).
Proof.
  unfold broadcast_sub. rewrite column_means_length, Nat.eqb_refl. reflexivity.
Qed.

Lemma dot_transpose_defined (X : matrix) :
  exists xtx, dot (transpose X) X = Ok xtx.
Proof.
  unfold dot. destruct (transpose_shape X) as [_ ->]. rewrite Nat.eqb_refl.
  eexists. reflexivity.
Qed.

(** Where the whitening matrix of the design document is defined, [fit]
    returns and stores the column means and that matrix. *)
Lemma fit_stores_defined_whitening
  (svd : matrix -> result (matrix * list float * matrix))
  (KneeLocator_elbow : list nat -> list float -> result (option nat))
  (copy : bool) (Xref : object_array) (X W : matrix) :
  check_array Xref = Ok X ->
  whitening svd KneeLocator_elbow X = Ok W ->
  fit svd KneeLocator_elbow (ZCA_corr_init copy) Xref
  = ({| copy := copy; mean_ := Some (column_means X); sphere_ := Some (Arr2 W) |}, Ok tt).
Proof.
  intros Hcheck HW. unfold fit. rewrite Hcheck. fold (column_means X).
  assert (Hs : fit_sphere svd KneeLocator_elbow X (column_means X) = Ok (Arr2 W)).
  { unfold fit_sphere. rewrite centred_data_broadcast. simpl bind.
    destruct (dot_transpose_defined (centred_data X)) as [xtx Hxtx].
    rewrite Hxtx. simpl bind.
    rewrite (covariance_diagonal _ _ Hxtx), nan_to_num_corr.
    unfold whitening in HW.
    destruct (svd _) as [[[G T] Vh]|e]; [|discriminate]. simpl in HW |- *.
    unfold estimate_regularization.
    destruct (KneeLocator_elbow _ T) as [[i|]|e]; try discriminate. simpl in HW |- *.
    destruct (nth_error T i) as [at_elbow|]; [|discriminate]. simpl.
    rewrite !map_map. fold (inverse_root_floored (at_elbow / 10)).
    unfold inverse_root_floored at 1 in HW.
    destruct (dot G _) as [GD|e]; [|discriminate]. simpl in HW |- *.
    destruct (dot GD _) as [GDGt|e]; [|discriminate]. simpl in HW |- *.
    unfold inverse_root_floored in HW. rewrite map_map in HW. rewrite HW. reflexivity. }
  rewrite Hs. reflexivity.
Qed.

Lemma dot_conforming (a b : matrix) :
  ncols a = nrows b -> exists m, dot a b = Ok m /\ ncols m = ncols b.
Proof.
  intros H. unfold dot. rewrite H, Nat.eqb_refl. eexists. split; reflexivity.
Qed.

(** C5, as amended: for every reference array that passes the validation
    of [fit] (numbers only, all finite, at least one row and one column),
    whenever the decomposition of the NaN/Inf-zeroed Pearson correlation
    matrix of the centred data returns factors [G] (one row per feature,
    one column per singular value) and [T], and the elbow search reports an
    index [i] of [T], the whitening matrix of the design document is
    defined,
    [G . diag(1/sqrt(T floored at T[i]/10)) . Gt
       . diag(1/sqrt(V floored at 1e-3))],
    with [V] the per-feature variances of divisor [n - 1], and [fit]
    returns and stores the column means and exactly that matrix. *)
Theorem fit_stores_whitening
  (svd : matrix -> result (matrix * list float * matrix))
  (KneeLocator_elbow : list nat -> list float -> result (option nat))
  (copy : bool) (Xref : object_array) (X G Vh : matrix) (T : list float)
  (i : nat) (at_elbow : float) :
  check_array Xref = Ok X ->
  svd (map_matrix zero_nonfinite (DataFrame_corr (centred_data X))) = Ok (G, T, Vh) ->
  nrows G = ncols X ->
  ncols G = length T ->
  KneeLocator_elbow (seq 0 (length T)) T = Ok (Some i) ->
  nth_error T i = Some at_elbow ->
  exists W,
    whitening svd KneeLocator_elbow X = Ok W /\
    fit svd KneeLocator_elbow (ZCA_corr_init copy) Xref
    = ({| copy := copy; mean_ := Some (column_means X); sphere_ := Some (Arr2 W) |},
       Ok tt).
Proof.
  intros Hcheck Hsvd HGr HGc HK Hnth.
  assert (HW : exists W, whitening svd KneeLocator_elbow X = Ok W).
  { unfold whitening. rewrite Hsvd. cbn [bind fst snd]. rewrite HK. cbn [bind].
    rewrite Hnth.
    destruct (dot_conforming G
                (diag_of_vector (map (inverse_root_floored (at_elbow / 10)) T)))
      as [GD [-> Hc1]].
    { destruct (diag_of_vector_shape (map (inverse_root_floored (at_elbow / 10)) T))
        as [-> _].
      rewrite length_map. exact HGc. }
    cbn [bind].
    destruct (dot_conforming GD (transpose G)) as [GDGt [-> Hc2]].
    { rewrite Hc1.
      destruct (diag_of_vector_shape (map (inverse_root_floored (at_elbow / 10)) T))
        as [_ ->].
      destruct (transpose_shape G) as [-> _]. rewrite length_map. symmetry. exact HGc. }
    cbn [bind].
    destruct (dot_conforming GDGt
                (diag_of_vector
                   (map (inverse_root_floored 1e-3)
                        (map (feature_variance (centred_data X)) (seq 0 (ncols X))))))
      as [W [-> _]].
    { rewrite Hc2.
      destruct (diag_of_vector_shape
                  (map (inverse_root_floored 1e-3)
                       (map (feature_variance (centred_data X)) (seq 0 (ncols X)))))
        as [-> _].
      destruct (transpose_shape G) as [_ ->].
      rewrite !length_map, length_seq. exact HGr. }
    exists W. reflexivity. }
  destruct HW as [W HW]. exists W. split; [exact HW|].
  exact (fit_stores_defined_whitening svd KneeLocator_elbow copy Xref X W Hcheck HW).
Qed.

Lemma fit_stores_whitening_witness :
  check_array reference_wells = Ok reference_matrix /\
  svd_of_diagonal
    (map_matrix zero_nonfinite (DataFrame_corr (centred_data reference_matrix)))
  = Ok (identity_matrix 2, [1%float; 1%float], identity_matrix 2) /\
  nrows (identity_matrix 2) = ncols reference_matrix /\
  ncols (identity_matrix 2) = length [1%float; 1%float] /\
  elbow_at_first (seq 0 (length [1%float; 1%float])) [1%float; 1%float] = Ok (Some 0) /\
  nth_error [1%float; 1%float] 0 = Some 1%float /\
  exists W,
    whitening svd_of_diagonal elbow_at_first reference_matrix = Ok W /\
    fit svd_of_diagonal elbow_at_first (ZCA_corr_init false) reference_wells
    = ({| copy := false;
          mean_ := Some (column_means reference_matrix);
          sphere_ := Some (Arr2 W) |}, Ok tt).
Proof.
  split; [vm_compute; reflexivity|]. split; [vm_compute; reflexivity|].
  split; [reflexivity|]. split; [reflexivity|]. split; [reflexivity|].
  split; [reflexivity|].
  apply (fit_stores_whitening svd_of_diagonal elbow_at_first false reference_wells
           reference_matrix (identity_matrix 2) (identity_matrix 2)
           [1%float; 1%float] 0 1%float).
  - vm_compute. reflexivity.
  - vm_compute. reflexivity.
  - reflexivity.
  - reflexivity.
  - reflexivity.
  - reflexivity.
Defined.

(** C5 as stated fails on a reference array of three rows in which one
    measurement is missing: whatever the decomposition and the elbow
    search are, the validation in [fit] raises [ValueError] and no
    whitening matrix is stored. *)
Lemma fit_refuses_reference_with_missing_value :
  numeric_array reference_with_missing_value /\
  2 <= length (orows reference_with_missing_value) /\
  forall svd KneeLocator_elbow,
    fit svd KneeLocator_elbow (ZCA_corr_init false) reference_with_missing_value
    = (ZCA_corr_init false, Raise ValueError) /\
    ~ stores_whitening svd KneeLocator_elbow reference_with_missing_value.
Proof.
  assert (E : check_array reference_with_missing_value = Raise ValueError)
    by (vm_compute; reflexivity).
  split; [repeat constructor|]. split; [simpl; lia|].
  intros svd KneeLocator_elbow. split.
  - unfold fit. rewrite E. reflexivity.
  - intros [X [W [Hcheck _]]]. rewrite E in Hcheck. discriminate.
Qed.

(** ** The shape of the sphereing array *)

Section FitShape.

Variable svd : matrix -> result (matrix * list float * matrix).
Variable KneeLocator_elbow : list nat -> list float -> result (option nat).

(** The regularization is a scalar, or an array of one row. *)
Lemma estimate_regularization_rows (T : list float) (m : matrix) :
  estimate_regularization KneeLocator_elbow T = Ok (Arr2 m) -> nrows m = 1.
Proof.
  unfold estimate_regularization. intros H. apply bind_ok in H as [elbow [_ H]].
  destruct elbow as [i|].
  - destruct (nth_error T i); discriminate.
  - injection H as <-. reflexivity.
Qed.

Lemma clip_min_rows (T : list float) (reg : ndarray) (mc : matrix) :
  clip_min T reg = Ok (Arr2 mc) ->
  exists mr, reg = Arr2 mr /\ nrows mc = nrows mr.
Proof.
  destruct reg as [r|v|mr]; simpl.
  - discriminate.
  - destruct (Nat.eqb _ _); discriminate.
  - destruct (Nat.eqb _ _); [|discriminate].
    intros H. injection H as <-. exists mr. split; [reflexivity|].
    unfold nrows. simpl. apply length_map.
Qed.

(** The inverse singular values: a square diagonal matrix, or (from a
    regularization of one row) a vector of at most one entry. *)
Lemma inverse_singular_values_shape (T : list float) (reg clipped t_inv : ndarray)
  (f g : float -> float) :
  estimate_regularization KneeLocator_elbow T = Ok reg ->
  clip_min T reg = Ok clipped ->
  diag_nd (map_nd g (map_nd f clipped)) = Ok t_inv ->
  match t_inv with
  | Arr2 ti => nrows ti = ncols ti
  | Arr1 tv => length tv <= 1
  | Arr0 _ => False
  end.
Proof.
  intros Hreg Hclip Hdiag.
  destruct clipped as [x|l|mc]; simpl in Hdiag.
  - discriminate.
  - injection Hdiag as <-.
    destruct (diag_of_vector_shape (map g (map f l))) as [-> ->]. reflexivity.
  - injection Hdiag as <-. rewrite diag_of_matrix_length.
    apply clip_min_rows in Hclip as [mr [-> Hrows]].
    apply estimate_regularization_rows in Hreg.
    unfold nrows, map_matrix in *. simpl. rewrite !length_map. lia.
Qed.

Lemma fit_sphere_shape (X : matrix) (W : ndarray) :
  fit_sphere svd KneeLocator_elbow X (column_means X) = Ok W ->
  fitted_shape W (ncols X).
Proof.
  unfold fit_sphere. intros H.
  apply bind_ok in H as [X_ [HX_ H]].
  apply bind_ok in H as [xtx [Hxtx H]].
  apply bind_ok in H as [GT_ [_ H]].
  apply bind_ok in H as [reg [Hreg H]].
  apply bind_ok in H as [clipped [Hclip H]].
  apply bind_ok in H as [t_inv [Htinv H]].
  apply bind_ok in H as [GtI [HGtI H]].
  apply bind_ok in H as [GtIGt [HGtIGt HW]].
  pose proof (inverse_singular_values_shape _ _ _ _ _ _ Hreg Hclip Htinv) as Ht.
  rewrite centred_data_broadcast in HX_. injection HX_ as <-.
  set (G := fst (fst GT_)) in *.
  set (v_inv := diag_of_vector _) in HW.
  assert (Hv : nrows v_inv = ncols X /\ ncols v_inv = ncols X).
  { unfold v_inv. destruct (diag_of_vector_shape
      (map (fun v => (1 / sqrt (maximum v 1e-3))%float)
           (diag_of_matrix
              (map_matrix (fun c => (c / of_nat (nrows (centred_data X) - 1))%float) xtx))))
      as [-> ->].
    rewrite length_map, (variances_length _ xtx _ Hxtx). simpl. auto. }
  destruct Hv as [Hvr Hvc].
  destruct (transpose_shape G) as [HGr HGc].
  destruct t_inv as [x|tv|ti]; [contradiction| |].
  - simpl in HGtI.
    match type of HGtI with
    | (if ?c then _ else _) = _ => destruct c eqn:E1; [|discriminate]
    end.
    injection HGtI as <-. simpl in HGtIGt. rewrite length_map in HGtIGt.
    match type of HGtIGt with
    | (if ?c then _ else _) = _ => destruct c eqn:E2; [|discriminate]
    end.
    injection HGtIGt as <-. simpl in HW. rewrite length_map, length_seq in HW.
    match type of HW with
    | (if ?c then _ else _) = _ => destruct c eqn:E3; [|discriminate]
    end.
    injection HW as <-. simpl. rewrite length_map, length_seq.
    apply Nat.eqb_eq in E1, E2, E3. unfold nrows in *. split; [exact Hvc|lia].
  - simpl in HGtI. apply bind_ok in HGtI as [b [Hb HGtI]].
    simpl in HGtI. injection HGtI as <-.
    simpl in HGtIGt. apply bind_ok in HGtIGt as [a [Ha HGtIGt]].
    simpl in HGtIGt. injection HGtIGt as <-.
    simpl in HW. apply bind_ok in HW as [w [Hw HW]].
    simpl in HW. injection HW as <-.
    apply dot_shape in Hb as [_ [_ Hbr]].
    apply dot_shape in Ha as [_ [Hac Har]].
    apply dot_shape in Hw as [Hwa [Hwc Hwr]].
    simpl. split; lia.
Qed.

End FitShape.

(** ** Plate sphering *)

Lemma get_loc_app_r (c : string) (l1 l2 : list string) :
  ~ In c l1 ->
  get_loc c (l1 ++ l2) = option_map (Nat.add (length l1)) (get_loc c l2).
Proof.
  induction l1 as [|c' l1 IH]; intros H; simpl.
  - destruct (get_loc c l2); reflexivity.
  - destruct (String.eqb c c') eqn:E.
    + apply String.eqb_eq in E. subst. exfalso. apply H. left. reflexivity.
    + rewrite IH by (intros Hin; apply H; right; exact Hin).
      destruct (get_loc c l2); reflexivity.
Qed.

(** In rows made of [d] feature cells followed by the metadata cells,
    position [d + k] holds metadata cell [k]. *)
Lemma cell_at_combined (d k : nat) (F M : list (list cell)) :
  length F = length M ->
  Forall (fun fr => length fr = d) F ->
  map (cell_at (d + k)) (map (fun p => fst p ++ snd p) (combine F M))
  = map (cell_at k) M.
Proof.
  revert M. induction F as [|fr F IH]; intros [|mr M] Hlen HF; simpl in *;
    try reflexivity; try discriminate.
  inversion HF as [|? ? Hfr HF']; subst.
  rewrite IH by (auto; lia). f_equal.
  unfold cell_at. rewrite app_nth2 by lia. f_equal. lia.
Qed.

Lemma partitioned_prefixes (df : DataFrame) (c : string) :
  partitioned df -> In c (columns df) ->
  String.prefix "Metadata" c = String.prefix "Metadata_" c.
Proof.
  intros Hp Hin. destruct (String.prefix "Metadata_" c) eqn:E.
  - apply prefix_Metadata_underscore. exact E.
  - destruct (String.prefix "Metadata" c) eqn:E'; [|reflexivity].
    rewrite (Hp c Hin E') in E. discriminate.
Qed.

Lemma partitioned_featurecols (df : DataFrame) :
  partitioned df ->
  get_featurecols df
  = filter (fun c => negb (String.prefix "Metadata_" c)) (columns df).
Proof.
  intros Hp. unfold get_featurecols. apply filter_ext_in. intros c Hc.
  rewrite (partitioned_prefixes df c Hp Hc). reflexivity.
Qed.

Lemma filter_complement_perm {A : Type} (f : A -> bool) (l : list A) :
  Permutation (filter (fun a => negb (f a)) l ++ filter f l) l.
Proof.
  induction l as [|a l IH]; simpl; [constructor|].
  destruct (f a); simpl.
  - apply Permutation_sym, Permutation_cons_app, Permutation_sym. exact IH.
  - constructor. exact IH.
Qed.

(** On a partitioned table the feature columns followed by the metadata
    columns are the columns of the table, in another order. *)
Lemma partitioned_columns (df : DataFrame) :
  partitioned df ->
  Permutation (get_featurecols df ++ get_metacols df) (columns df).
Proof.
  intros Hp. rewrite (partitioned_featurecols df Hp). apply filter_complement_perm.
Qed.

(** [transform] of a transformer fitted for [d] features, on an array of
    numbers with [d] columns: one output row per input row, [d] entries
    each. *)
Lemma transform_fitted (st : ZCA_corr) (means : list float) (W : ndarray)
  (X : object_array) (d : nat) :
  mean_ st = Some means -> length means = d ->
  sphere_ st = Some W -> fitted_shape W d ->
  ocols X = d -> numeric_array X ->
  exists vals,
    transform st X = Ok vals /\
    match vals with
    | Arr2 r => nrows r = length (orows X) /\ ncols r = d /\
                Forall (fun row => length row = d) (mrows r)
    | Arr1 v => length v = length (orows X) /\ d <= 1
    | Arr0 _ => False
    end.
Proof.
  intros Hm Hlen Hs HW Hd Hnum. unfold transform, as_float_array.
  rewrite Hm, Hs, (astype_float64_numeric _ _ Hnum). simpl bind.
  unfold broadcast_sub. simpl ncols. rewrite Hd, Hlen, Nat.eqb_refl. simpl bind.
  destruct W as [x|v|w]; simpl in HW; [contradiction| |].
  - destruct HW as [Hv Hd1]. simpl. rewrite Hv, Nat.eqb_refl.
    eexists. split; [reflexivity|]. simpl. rewrite !length_map. auto.
  - destruct HW as [Hr Hc]. simpl. unfold dot. simpl ncols.
    destruct (transpose_shape w) as [-> Htc]. rewrite Hc, Nat.eqb_refl. simpl bind.
    eexists. split; [reflexivity|]. simpl. unfold nrows. simpl.
    rewrite !length_map. split; [reflexivity|]. split; [exact Hr|].
    apply Forall_forall. intros row Hrow. apply in_map_iff in Hrow as [r [<- _]].
    rewrite length_map, length_seq. exact Hr.
Qed.

(** The function, once the control-type column is found, in terms of the
    two arrays handed to the transformer. *)
Lemma sphere_plate_zca_corr_steps
  (svd : matrix -> result (matrix * list float * matrix))
  (KneeLocator_elbow : list nat -> list float -> result (option nat))
  (plate : DataFrame) (jc : nat) :
  get_loc "Metadata_control_type" (columns plate) = Some jc ->
  sphere_plate_zca_corr svd KneeLocator_elbow plate
  = (let fitted := fit svd KneeLocator_elbow (ZCA_corr_init false)
                       (control_features plate jc) in
     _ <- snd fitted ;;
     sphereed_vals <- transform (fst fitted) (plate_features plate) ;;
     feature_df <- DataFrame_of_array sphereed_vals (get_featurecols plate) (index plate) ;;
     let combined := concat_axis1 feature_df (metadata_of plate) in
     if Nat.eqb (fst (shape combined)) (fst (shape plate))
        && Nat.eqb (snd (shape combined)) (snd (shape plate))
     then Ok combined
     else Raise AssertionError).
Proof.
  intros Hjc. unfold sphere_plate_zca_corr, getitem. rewrite Hjc. simpl bind.
  rewrite !get_featuredata_total, get_metadata_total. simpl bind.
  unfold to_numpy, loc_mask. simpl.
  rewrite map_map.
  rewrite (mask_filter_map (fun r => cell_eqb (cell_at jc r) (Str "negcon"))).
  reflexivity.
Qed.

Lemma nth_map_lt {A B : Type} (g : A -> B) (l : list A) (k : nat) (a : A) (b : B) :
  k < length l -> nth k (map g l) b = g (nth k l a).
Proof.
  intros H. rewrite (nth_indep _ b (g a)) by (rewrite length_map; exact H).
  apply map_nth.
Qed.

(** A metadata column of the reassembled table holds the cells it holds in
    the plate. *)
Lemma metadata_column_kept (plate : DataFrame) (idx : list Z) (F : list (list cell))
  (c : string) :
  In c (get_metacols plate) ->
  length F = length (values plate) ->
  Forall (fun fr => length fr = length (get_featurecols plate)) F ->
  getitem {| columns := get_featurecols plate ++ get_metacols plate;
             index := idx;
             values := map (fun p => fst p ++ snd p)
                           (combine F (values (metadata_of plate))) |} c
  = getitem plate c.
Proof.
  intros Hc HF Hrows. unfold getitem. simpl columns. simpl values.
  rewrite get_loc_app_r
    by (intros Hf; apply (accessors_disjoint plate c); split; assumption).
  destruct (get_loc_In c _ Hc) as [k Hk]. rewrite Hk. simpl option_map.
  assert (Hcol : In c (columns plate))
    by (unfold get_metacols in Hc; apply filter_In in Hc; tauto).
  destruct (get_loc_In c _ Hcol) as [j Hj]. rewrite Hj. f_equal.
  rewrite cell_at_combined by (auto; rewrite length_map; exact HF).
  rewrite map_map. apply map_ext. intros row.
  apply get_loc_lt in Hk as [Hklt Hnth].
  unfold cell_at at 1.
  rewrite (nth_map_lt _ (metadata_positions plate) k 0)
    by (unfold metadata_positions; rewrite length_map; exact Hklt).
  unfold metadata_positions.
  rewrite (nth_map_lt _ (get_metacols plate) k ""%string) by exact Hklt.
  rewrite Hnth, Hj. reflexivity.
Qed.

Lemma plate_features_numeric (plate : DataFrame) :
  numeric_features plate -> numeric_array (plate_features plate).
Proof.
  intros H. exact (H _ (get_featuredata_total plate)).
Qed.

(** C4, as amended: for every well-formed plate table of numbers whose
    column labels all either start with "Metadata_" or do not start with
    "Metadata", and on whose control wells [fit] succeeds,
    [sphere_plate_zca_corr] returns a table with the shape and the row
    index of the plate, with the columns of the plate (the feature columns
    first, then the metadata columns), and with every metadata column
    holding the cells it holds in the plate. *)
Theorem sphere_plate_zca_corr_frame
  (svd : matrix -> result (matrix * list float * matrix))
  (KneeLocator_elbow : list nat -> list float -> result (option nat))
  (plate : DataFrame) (jc : nat) (st : ZCA_corr) :
  wf plate ->
  partitioned plate ->
  numeric_features plate ->
  get_loc "Metadata_control_type" (columns plate) = Some jc ->
  fit svd KneeLocator_elbow (ZCA_corr_init false) (control_features plate jc)
  = (st, Ok tt) ->
  exists combined,
    sphere_plate_zca_corr svd KneeLocator_elbow plate = Ok combined /\
    shape combined = shape plate /\
    index combined = index plate /\
    columns combined = get_featurecols plate ++ get_metacols plate /\
    Permutation (columns combined) (columns plate) /\
    (forall c, In c (get_metacols plate) -> getitem combined c = getitem plate c).
Proof.
  intros [_ [Hidx _]] Hp Hnum Hjc Hfit.
  rewrite (sphere_plate_zca_corr_steps svd KneeLocator_elbow plate jc Hjc).
  cbv zeta. rewrite Hfit. simpl fst. simpl snd. simpl bind.
  apply fit_returns in Hfit as [Xf [W [Hcheck [Hsphere ->]]]].
  apply check_array_shape in Hcheck as [Hd [Hd1 _]].
  apply fit_sphere_shape in Hsphere. rewrite Hd in Hsphere, Hd1.
  change (ocols (control_features plate jc)) with (length (get_featurecols plate))
    in Hsphere, Hd1, Hd.
  destruct (transform_fitted
              {| copy := copy (ZCA_corr_init false);
                 mean_ := Some (column_means Xf);
                 sphere_ := Some W |}
              (column_means Xf) W (plate_features plate)
              (length (get_featurecols plate)))
    as [vals [-> Hvals]];
    [reflexivity|rewrite column_means_length; exact Hd|reflexivity|exact Hsphere
    |reflexivity|apply plate_features_numeric; exact Hnum|].
  simpl bind.
  assert (Hrows : length (orows (plate_features plate)) = length (values plate))
    by (simpl; apply length_map).
  rewrite Hrows in Hvals.
  pose proof (Permutation_length (partitioned_columns plate Hp)) as Hcols.
  assert (Hdf : exists F,
             DataFrame_of_array vals (get_featurecols plate) (index plate)
             = Ok {| columns := get_featurecols plate;
                     index := index plate;
                     values := F |} /\
             length F = length (values plate) /\
             Forall (fun fr => length fr = length (get_featurecols plate)) F).
  { destruct vals as [x|v|r]; [contradiction| |].
    - destruct Hvals as [Hv Hle]. unfold DataFrame_of_array.
      assert (E1 : Nat.eqb (length v) (length (index plate)) = true)
        by (apply Nat.eqb_eq; lia).
      assert (E2 : Nat.eqb 1 (length (get_featurecols plate)) = true)
        by (apply Nat.eqb_eq; lia).
      rewrite E1, E2. simpl. eexists. split; [reflexivity|].
      split; [rewrite length_map; exact Hv|].
      apply Forall_forall. intros fr Hfr. apply in_map_iff in Hfr as [x [<- _]].
      simpl. apply Nat.eqb_eq in E2. exact E2.
    - destruct Hvals as [Hr [Hc Hrect]]. unfold DataFrame_of_array.
      assert (E1 : Nat.eqb (nrows r) (length (index plate)) = true)
        by (apply Nat.eqb_eq; lia).
      assert (E2 : Nat.eqb (ncols r) (length (get_featurecols plate)) = true)
        by (apply Nat.eqb_eq; lia).
      rewrite E1, E2. simpl. eexists. split; [reflexivity|].
      split; [rewrite length_map; exact Hr|].
      apply Forall_forall. intros fr Hfr. apply in_map_iff in Hfr as [row [<- Hrow]].
      rewrite length_map. rewrite Forall_forall in Hrect. apply Hrect. exact Hrow. }
  destruct Hdf as [F [-> [HF Hrect]]]. simpl bind.
  assert (Hshape : shape (concat_axis1 {| columns := get_featurecols plate;
                                          index := index plate;
                                          values := F |} (metadata_of plate))
                   = shape plate).
  { unfold shape, concat_axis1. simpl.
    rewrite length_map, length_combine, length_map, HF, Nat.min_id.
    rewrite Hcols. reflexivity. }
  match goal with
  | |- exists _, (if ?c then _ else _) = _ /\ _ => replace c with true
  end.
  2: { symmetry. apply andb_true_iff. split; apply Nat.eqb_eq.
       - rewrite length_map, length_combine, length_map, HF, Nat.min_id. reflexivity.
       - exact Hcols. }
  eexists. split; [reflexivity|].
  split; [exact Hshape|]. split; [reflexivity|]. split; [reflexivity|].
  split; [apply partitioned_columns; exact Hp|].
  intros c Hc. apply metadata_column_kept; assumption.
Qed.

Lemma plate_of_eight_wf : wf plate_of_eight.
Proof.
  split; [|split].
  - repeat constructor; simpl; intuition discriminate.
  - reflexivity.
  - repeat constructor.
Qed.

Lemma plate_of_eight_partitioned : partitioned plate_of_eight.
Proof.
  intros c Hc. simpl in Hc.
  destruct Hc as [<-|[<-|[<-|[<-|[]]]]]; vm_compute; intros H; congruence.
Qed.

Lemma plate_of_eight_numeric : numeric_features plate_of_eight.
Proof.
  intros features H. rewrite get_featuredata_total in H. injection H as <-.
  vm_compute. repeat constructor.
Qed.

Lemma sphere_plate_zca_corr_frame_witness :
  wf plate_of_eight /\
  partitioned plate_of_eight /\
  numeric_features plate_of_eight /\
  get_loc "Metadata_control_type" (columns plate_of_eight) = Some 1 /\
  fit svd_of_diagonal elbow_at_first (ZCA_corr_init false)
    (control_features plate_of_eight 1) = (fitted_on_plate, Ok tt) /\
  exists combined,
    sphere_plate_zca_corr svd_of_diagonal elbow_at_first plate_of_eight = Ok combined /\
    shape combined = shape plate_of_eight /\
    index combined = index plate_of_eight /\
    columns combined = get_featurecols plate_of_eight ++ get_metacols plate_of_eight /\
    Permutation (columns combined) (columns plate_of_eight) /\
    (forall c, In c (get_metacols plate_of_eight) ->
               getitem combined c = getitem plate_of_eight c).
Proof.
  split; [exact plate_of_eight_wf|].
  split; [exact plate_of_eight_partitioned|].
  split; [exact plate_of_eight_numeric|].
  split; [reflexivity|].
  split; [vm_compute; reflexivity|].
  apply (sphere_plate_zca_corr_frame svd_of_diagonal elbow_at_first plate_of_eight 1
           fitted_on_plate).
  - exact plate_of_eight_wf.
  - exact plate_of_eight_partitioned.
  - exact plate_of_eight_numeric.
  - reflexivity.
  - vm_compute. reflexivity.
Defined.

(** Whatever the two library routines return, a missing measurement in a
    control well makes [fit] refuse the reference array. *)
Lemma sphere_plate_missing_value
  (svd : matrix -> result (matrix * list float * matrix))
  (KneeLocator_elbow : list nat -> list float -> result (option nat)) :
  sphere_plate_zca_corr svd KneeLocator_elbow plate_with_missing_value
  = Raise ValueError.
Proof.
  vm_compute. reflexivity.
Qed.

(** C4 as stated fails on a plate that has control wells, one of them with
    a missing measurement: validation of the reference array raises a
    [ValueError] and no table is returned. *)
Lemma sphere_plate_zca_corr_raises_on_missing_value :
  (exists row, In row (values plate_with_missing_value) /\ is_negcon 1 row = true) /\
  (forall svd KneeLocator_elbow,
      sphere_plate_zca_corr svd KneeLocator_elbow plate_with_missing_value
      = Raise ValueError) /\
  ~ sphere_plate_always_returns plate_with_missing_value.
Proof.
  assert (Hrow : exists row, In row (values plate_with_missing_value) /\
                             is_negcon 1 row = true).
  { exists [Str "A01"; Str "negcon"; Num 1%float; Num nan].
    split; [left; reflexivity|reflexivity]. }
  split; [exact Hrow|]. split; [exact sphere_plate_missing_value|].
  intros H.
  destruct (H svd_of_diagonal elbow_at_first 1 eq_refl Hrow) as [combined [Hc _]].
  rewrite sphere_plate_missing_value in Hc. discriminate.
Qed.

(** The assertion at the end of [sphere_plate_zca_corr] lets a table
    through only when the two accessors, between them, list as many columns
    as the plate has. *)
Lemma sphere_plate_zca_corr_counts_columns
  (svd : matrix -> result (matrix * list float * matrix))
  (KneeLocator_elbow : list nat -> list float -> result (option nat))
  (plate combined : DataFrame) :
  sphere_plate_zca_corr svd KneeLocator_elbow plate = Ok combined ->
  length (get_featurecols plate) + length (get_metacols plate) = length (columns plate).
Proof.
  destruct (get_loc "Metadata_control_type" (columns plate)) as [jc|] eqn:Hjc.
  - rewrite (sphere_plate_zca_corr_steps svd KneeLocator_elbow plate jc Hjc). cbv zeta.
    intros H.
    apply bind_ok in H as [_ [_ H]].
    apply bind_ok in H as [vals [_ H]].
    apply bind_ok in H as [feature_df [Hdf H]].
    assert (Hcols : columns feature_df = get_featurecols plate).
    { unfold DataFrame_of_array in Hdf.
      destruct vals as [x|v|r]; [discriminate| |];
        match type of Hdf with
        | (if ?c then _ else _) = _ => destruct c; [|discriminate]
        end; injection Hdf as <-; reflexivity. }
    match type of H with
    | (if ?c then _ else _) = _ => destruct c eqn:E; [|discriminate]
    end.
    apply andb_true_iff in E as [_ E]. apply Nat.eqb_eq in E.
    unfold shape, concat_axis1 in E. simpl in E.
    rewrite length_app, Hcols in E. exact E.
  - unfold sphere_plate_zca_corr, getitem. rewrite Hjc. discriminate.
Qed.

(** On the plate with the column "MetadataWell" the function returns no
    table, whatever the two library routines return: its assertion cannot
    hold. *)
Lemma sphere_plate_zca_corr_stray_label
  (svd : matrix -> result (matrix * list float * matrix))
  (KneeLocator_elbow : list nat -> list float -> result (option nat))
  (combined : DataFrame) :
  sphere_plate_zca_corr svd KneeLocator_elbow plate_with_stray_label <> Ok combined.
Proof.
  intros H. apply sphere_plate_zca_corr_counts_columns in H. discriminate H.
Qed.

(** * Further properties of the code *)

(** ** Accessors *)

(** X1: for every table, a label returned by [get_metacols] is a column of
    the table and is not returned by [get_featurecols], and a label
    returned by [get_featurecols] is a column of the table and is not
    returned by [get_metacols]. *)
Theorem accessors_never_overlap (df : DataFrame) (c : string) :
  (In c (get_metacols df) -> In c (columns df) /\ ~ In c (get_featurecols df)) /\
  (In c (get_featurecols df) -> In c (columns df) /\ ~ In c (get_metacols df)).
Proof.
  split; intros H.
  - split.
    + unfold get_metacols in H. apply filter_In in H. tauto.
    + intros Hf. apply (accessors_disjoint df c). tauto.
  - split.
    + unfold get_featurecols in H. apply filter_In in H. tauto.
    + intros Hm. apply (accessors_disjoint df c). tauto.
Qed.

(** X2: the two accessors classify every column of a table exactly when no
    label of the table starts with "Metadata" without going on with an
    underscore; on such a table the feature labels followed by the
    metadata labels are a rearrangement of the columns. *)
Theorem accessors_partition_iff (df : DataFrame) :
  (accessors_partition df <-> partitioned df) /\
  (partitioned df -> Permutation (get_featurecols df ++ get_metacols df) (columns df)).
Proof.
  split; [split|].
  - intros [_ Hcover] c Hc Hpre.
    destruct (proj1 (Hcover c) Hc) as [Hm|Hf].
    + unfold get_metacols in Hm. apply filter_In in Hm. tauto.
    + unfold get_featurecols in Hf. apply filter_In in Hf as [_ Hf].
      rewrite Hpre in Hf. discriminate.
  - apply accessors_cover.
  - apply partitioned_columns.
Qed.

Lemma getitems_wf (df : DataFrame) (cols : list string) (js : list nat) :
  NoDup cols -> length js = length cols ->
  length (index df) = length (values df) ->
  wf {| columns := cols;
        index := index df;
        values := map (fun row => map (fun j => cell_at j row) js) (values df) |}.
Proof.
  intros Hnd Hjs Hidx. split; [exact Hnd|]. split; simpl.
  - rewrite length_map. exact Hidx.
  - apply Forall_forall. intros row Hrow. apply in_map_iff in Hrow as [r [<- _]].
    rewrite length_map. exact Hjs.
Qed.

(** X3: on a table whose column labels are distinct, [get_featuredata]
    and [get_metadata] never raise: they return the columns the accessors
    list, with the row labels and the row count of the table, and a
    well-formed table gives well-formed views. *)
Theorem views_total (df : DataFrame) :
  NoDup (columns df) ->
  exists features metadata,
    get_featuredata df = Ok features /\
    get_metadata df = Ok metadata /\
    columns features = get_featurecols df /\
    columns metadata = get_metacols df /\
    index features = index df /\
    index metadata = index df /\
    len features = len df /\
    len metadata = len df /\
    (wf df -> wf features /\ wf metadata).
Proof.
  intros _. rewrite get_featuredata_total, get_metadata_total.
  do 2 eexists. split; [reflexivity|]. split; [reflexivity|].
  split; [reflexivity|]. split; [reflexivity|].
  split; [reflexivity|]. split; [reflexivity|].
  split; [apply length_map|]. split; [apply length_map|].
  intros [Hnd [Hidx _]]. split; apply getitems_wf;
    try exact Hidx; try (apply NoDup_filter; exact Hnd);
    unfold feature_positions; rewrite length_map; reflexivity.
Qed.

Lemma views_total_witness :
  NoDup (columns plate_of_eight) /\
  exists features metadata,
    get_featuredata plate_of_eight = Ok features /\
    get_metadata plate_of_eight = Ok metadata /\
    columns features = get_featurecols plate_of_eight /\
    columns metadata = get_metacols plate_of_eight /\
    index features = index plate_of_eight /\
    index metadata = index plate_of_eight /\
    len features = len plate_of_eight /\
    len metadata = len plate_of_eight /\
    (wf plate_of_eight -> wf features /\ wf metadata).
Proof.
  assert (H : NoDup (columns plate_of_eight))
    by (repeat constructor; simpl; intuition discriminate).
  split; [exact H|]. exact (views_total plate_of_eight H).
Defined.

(** ** The well filter *)

(** What the filter returns when both columns are present. *)
Lemma remove_negcon_empty_wells_value (df : DataFrame) (jc jb : nat) :
  get_loc "Metadata_control_type" (columns df) = Some jc ->
  get_loc "Metadata_broad_sample" (columns df) = Some jb ->
  remove_negcon_empty_wells df
  = Ok {| columns := columns df;
          index := RangeIndex
                     (length (filter (fun r => negb (is_negcon jc r)
                                               && negb (lacks_perturbation jb r))
                                     (values df)));
          values := filter (fun r => negb (is_negcon jc r) && negb (lacks_perturbation jb r))
                           (values df) |}.
Proof.
  intros Hc Hb.
  unfold remove_negcon_empty_wells, query_ne. rewrite Hc. simpl bind.
  unfold dropna_subset. simpl columns. rewrite Hb. simpl bind.
  unfold reset_index_drop, loc_mask. simpl.
  rewrite (mask_filter_map (fun r => negb (cell_eqb (cell_at jc r) (Str "negcon")))).
  rewrite (mask_filter_map (fun r => negb (isna (cell_at jb r)))).
  rewrite filter_filter. reflexivity.
Qed.

Lemma remove_negcon_empty_wells_columns (df out : DataFrame) :
  remove_negcon_empty_wells df = Ok out ->
  exists jc jb,
    get_loc "Metadata_control_type" (columns df) = Some jc /\
    get_loc "Metadata_broad_sample" (columns df) = Some jb.
Proof.
  unfold remove_negcon_empty_wells, query_ne, dropna_subset.
  destruct (get_loc "Metadata_control_type" (columns df)) as [jc|]; [|discriminate].
  simpl. destruct (get_loc "Metadata_broad_sample" (columns df)) as [jb|]; [|discriminate].
  intros _. exists jc, jb. split; reflexivity.
Qed.

(** X4: without the control-type column the filter raises the undefined
    variable error of [query]; with it but without the perturbation column
    it raises [KeyError]. *)
Theorem remove_negcon_empty_wells_missing_column (df : DataFrame) :
  (get_loc "Metadata_control_type" (columns df) = None ->
   remove_negcon_empty_wells df = Raise UndefinedVariableError) /\
  (get_loc "Metadata_control_type" (columns df) <> None ->
   get_loc "Metadata_broad_sample" (columns df) = None ->
   remove_negcon_empty_wells df = Raise KeyError).
Proof.
  unfold remove_negcon_empty_wells, query_ne, dropna_subset. split.
  - intros ->. reflexivity.
  - destruct (get_loc "Metadata_control_type" (columns df)); [|congruence].
    intros _. simpl. intros ->. reflexivity.
Qed.

Lemma filter_idempotent {A : Type} (f : A -> bool) (l : list A) :
  filter f (filter f l) = filter f l.
Proof.
  rewrite filter_filter. apply filter_ext. intros a. destruct (f a); reflexivity.
Qed.

(** X5: the filter is idempotent: filtering a filtered table returns it
    unchanged. *)
Theorem remove_negcon_empty_wells_idempotent (df out : DataFrame) :
  remove_negcon_empty_wells df = Ok out ->
  remove_negcon_empty_wells out = Ok out.
Proof.
  intros H.
  destruct (remove_negcon_empty_wells_columns df out H) as [jc [jb [Hc Hb]]].
  rewrite (remove_negcon_empty_wells_value df jc jb Hc Hb) in H. injection H as <-.
  match goal with
  | |- remove_negcon_empty_wells ?o = _ =>
      rewrite (remove_negcon_empty_wells_value o jc jb Hc Hb)
  end.
  simpl. rewrite filter_idempotent. reflexivity.
Qed.

Lemma remove_negcon_empty_wells_idempotent_witness :
  remove_negcon_empty_wells wells
  = Ok {| columns := columns wells;
          index := [0%Z];
          values := [[Num nan; Str "BRD-K0001"; Num 3%float]] |} /\
  remove_negcon_empty_wells
    {| columns := columns wells;
       index := [0%Z];
       values := [[Num nan; Str "BRD-K0001"; Num 3%float]] |}
  = Ok {| columns := columns wells;
          index := [0%Z];
          values := [[Num nan; Str "BRD-K0001"; Num 3%float]] |}.
Proof.
  split; [vm_compute; reflexivity|].
  apply (remove_negcon_empty_wells_idempotent wells). vm_compute. reflexivity.
Defined.

Lemma RangeIndex_length (n : nat) : length (RangeIndex n) = n.
Proof. unfold RangeIndex. rewrite length_map, length_seq. reflexivity. Qed.

(** X6: the filter keeps a well-formed table well formed, keeps its
    columns, and never returns more rows than it was given. *)
Theorem remove_negcon_empty_wells_wf (df out : DataFrame) :
  wf df ->
  remove_negcon_empty_wells df = Ok out ->
  wf out /\ columns out = columns df /\ len out <= len df.
Proof.
  intros [Hnd [Hidx Hrows]] H.
  destruct (remove_negcon_empty_wells_columns df out H) as [jc [jb [Hc Hb]]].
  rewrite (remove_negcon_empty_wells_value df jc jb Hc Hb) in H. injection H as <-.
  split; [|split].
  - split; [exact Hnd|]. split; simpl.
    + apply RangeIndex_length.
    + rewrite Forall_forall in *. intros r Hr. apply filter_In in Hr as [Hr _].
      apply Hrows. exact Hr.
  - reflexivity.
  - unfold len. simpl. apply filter_length_le.
Qed.

Lemma wells_wf : wf wells.
Proof.
  split; [|split].
  - repeat constructor; simpl; intuition discriminate.
  - reflexivity.
  - repeat constructor.
Qed.

Lemma remove_negcon_empty_wells_wf_witness :
  wf wells /\
  remove_negcon_empty_wells wells
  = Ok {| columns := columns wells;
          index := [0%Z];
          values := [[Num nan; Str "BRD-K0001"; Num 3%float]] |} /\
  wf {| columns := columns wells;
        index := [0%Z];
        values := [[Num nan; Str "BRD-K0001"; Num 3%float]] |} /\
  columns wells = columns wells /\
  1 <= len wells.
Proof.
  split; [exact wells_wf|]. split; [vm_compute; reflexivity|].
  apply (remove_negcon_empty_wells_wf wells).
  - exact wells_wf.
  - vm_compute. reflexivity.
Defined.

(** ** Percent score at the edges *)

Lemma ltb_nan_l (c : float) : PrimFloat.ltb nan c = false.
Proof.
  rewrite ltb_spec. change (Prim2SF nan) with S754_nan. reflexivity.
Qed.

Lemma ltb_nan_r (c : float) : PrimFloat.ltb c nan = false.
Proof.
  rewrite ltb_spec. change (Prim2SF nan) with S754_nan.
  destruct (Prim2SF c); reflexivity.
Qed.

Lemma is_nan_eq (x : float) : is_nan x = true -> x = nan.
Proof.
  unfold is_nan. rewrite eqb_spec. intros H.
  rewrite <- (SF2Prim_Prim2SF x).
  destruct (Prim2SF x) as [s|s| |s m e] eqn:E.
  - destruct s; discriminate H.
  - destruct s; discriminate H.
  - reflexivity.
  - exfalso. apply negb_true_iff in H. unfold SFeqb, SFcompare in H.
    destruct s; rewrite Z.compare_refl, Pos.compare_cont_refl in H; discriminate H.
Qed.

Lemma nanpercentile_no_value (null_dist : list float) (q : float) :
  Forall (fun x => is_nan x = true) null_dist -> nanpercentile null_dist q = nan.
Proof.
  intros H. unfold nanpercentile.
  replace (filter notnan null_dist) with (@nil float); [reflexivity|].
  symmetry. induction H as [|x l Hx _ IH]; simpl; [reflexivity|].
  unfold notnan at 1. rewrite Hx. exact IH.
Qed.

Lemma map_const_false {A : Type} (f : A -> bool) (l : list A) :
  (forall a, f a = false) -> map f l = repeat false (length l).
Proof.
  intros H. apply map_all_same. intros a _. apply H.
Qed.

(** X7: with an empty observed distribution the score is NaN in every mode
    (the mean of nothing), while the thresholds are still those of the null
    distribution. *)
Theorem percent_score_empty_observed (null_dist : list float) :
  percent_score null_dist [] "right" = Tuple2 nan (nanpercentile null_dist 95) /\
  percent_score null_dist [] "left" = Tuple2 nan (nanpercentile null_dist 5) /\
  percent_score null_dist [] "both"
  = Tuple3 nan (nanpercentile null_dist 95) (nanpercentile null_dist 5).
Proof.
  repeat split; reflexivity.
Qed.

(** X8: when the null distribution is empty or holds only NaN, both
    thresholds are NaN and no observed value is counted as beyond them: in
    every mode the score is computed from an indicator array of zeros. *)
Theorem percent_score_no_null (null_dist corr_dist : list float) :
  Forall (fun x => is_nan x = true) null_dist ->
  let zeros := astype_float (repeat false (length corr_dist)) in
  percent_score null_dist corr_dist "right" = Tuple2 (mean zeros) nan /\
  percent_score null_dist corr_dist "left" = Tuple2 (mean zeros) nan /\
  percent_score null_dist corr_dist "both"
  = Tuple3 (mean zeros + mean zeros)%float nan nan.
Proof.
  intros H zeros. unfold percent_score. simpl String.eqb. cbv iota.
  rewrite !(nanpercentile_no_value _ _ H).
  rewrite (map_const_false (fun c => PrimFloat.ltb nan c)) by apply ltb_nan_l.
  rewrite (map_const_false (fun c => PrimFloat.ltb c nan)) by apply ltb_nan_r.
  repeat split; reflexivity.
Qed.

Lemma percent_score_no_null_witness :
  Forall (fun x => is_nan x = true) [nan; nan] /\
  percent_score [nan; nan] [0.5; 0.9]%float "right" = Tuple2 0 nan /\
  percent_score [nan; nan] [0.5; 0.9]%float "left" = Tuple2 0 nan /\
  percent_score [nan; nan] [0.5; 0.9]%float "both" = Tuple3 0 nan nan.
Proof.
  split; [repeat constructor|].
  apply (percent_score_no_null [nan; nan] [0.5; 0.9]%float). repeat constructor.
Defined.

(** X9: observed values that are NaN (groups with a single replicate) are
    never counted as beyond a threshold: when every observed value is NaN,
    the score of every mode is computed from an indicator array of zeros,
    whatever the null distribution. *)
Theorem percent_score_nan_observed (null_dist corr_dist : list float) :
  Forall (fun x => is_nan x = true) corr_dist ->
  let zeros := astype_float (repeat false (length corr_dist)) in
  percent_score null_dist corr_dist "right"
  = Tuple2 (mean zeros) (nanpercentile null_dist 95) /\
  percent_score null_dist corr_dist "left"
  = Tuple2 (mean zeros) (nanpercentile null_dist 5) /\
  percent_score null_dist corr_dist "both"
  = Tuple3 (mean zeros + mean zeros)%float
           (nanpercentile null_dist 95) (nanpercentile null_dist 5).
Proof.
  intros H zeros. unfold percent_score. simpl String.eqb. cbv iota.
  assert (Ha : forall t, map (fun c => PrimFloat.ltb t c) corr_dist
                         = repeat false (length corr_dist)).
  { intros t. apply map_all_same. intros c Hc. rewrite Forall_forall in H.
    rewrite (is_nan_eq c (H c Hc)). apply ltb_nan_r. }
  assert (Hb : forall t, map (fun c => PrimFloat.ltb c t) corr_dist
                         = repeat false (length corr_dist)).
  { intros t. apply map_all_same. intros c Hc. rewrite Forall_forall in H.
    rewrite (is_nan_eq c (H c Hc)). apply ltb_nan_l. }
  rewrite !Ha, !Hb. repeat split; reflexivity.
Qed.

Lemma percent_score_nan_observed_witness :
  Forall (fun x => is_nan x = true) [nan; nan; nan] /\
  percent_score [0.1; 0.2; 0.3]%float [nan; nan; nan] "right"
  = Tuple2 0 (nanpercentile [0.1; 0.2; 0.3]%float 95) /\
  percent_score [0.1; 0.2; 0.3]%float [nan; nan; nan] "left"
  = Tuple2 0 (nanpercentile [0.1; 0.2; 0.3]%float 5) /\
  percent_score [0.1; 0.2; 0.3]%float [nan; nan; nan] "both"
  = Tuple3 0 (nanpercentile [0.1; 0.2; 0.3]%float 95)
           (nanpercentile [0.1; 0.2; 0.3]%float 5).
Proof.
  split; [repeat constructor|].
  apply (percent_score_nan_observed [0.1; 0.2; 0.3]%float [nan; nan; nan]).
  repeat constructor.
Defined.

(** ** Replicate correlation at the edges *)







Lemma filter_none {A : Type} (p : A -> bool) (l : list A) :
  (forall b, In b l -> p b = false) -> filter p l = [].
Proof.
  induction l as [|x l IH]; intros H; simpl; [reflexivity|].
  rewrite (H x (or_introl eq_refl)). apply IH. intros b Hb. apply H. right. exact Hb.
Qed.




(** ** The single-modality null sampler at the edges *)

(** X12: on a table without rows, asking for at least one sample of at
    least one row makes the first draw raise [IndexError]
    ([random.choices] on an empty population). *)
Theorem corr_between_non_replicates_empty_table (fuel : nat) (t : tape) (pos : nat)
  (df : DataFrame) (n_samples n_replicates : nat) (key : string) :
  values df = [] -> 1 <= n_samples -> 1 <= n_replicates ->
  corr_between_non_replicates (S fuel) t pos df n_samples n_replicates key
  = Some (Raise IndexError).
Proof.
  intros Hv Hs Hk. unfold corr_between_non_replicates. simpl.
  destruct n_samples as [|n]; [lia|]. simpl.
  unfold non_replicates_draw, len, reset_index_drop. simpl. rewrite Hv.
  destruct n_replicates as [|k]; [lia|]. reflexivity.
Qed.

Lemma corr_between_non_replicates_empty_table_witness :
  values no_wells = [] /\ 1 <= 3 /\ 1 <= 4 /\
  corr_between_non_replicates 1 constant_tape 0 no_wells 3 4 "Metadata_pert_iname"
  = Some (Raise IndexError).
Proof.
  split; [reflexivity|]. split; [lia|]. split; [lia|].
  apply (corr_between_non_replicates_empty_table 0 constant_tape 0 no_wells 3 4);
    [reflexivity|lia|lia].
Defined.




(** *** Fewer identities than rows to draw *)








(** ** Cross-modality correlation at the edges *)

(** X15: both cross-modality functions raise [KeyError] when the
    common-key column is missing from the first table, or from the second
    one, before looking at anything else. *)
Theorem modalities_missing_common_column (t : tape) (pos : nat)
  (modality_1_df modality_2_df : DataFrame)
  (modality_1 modality_2 metadata_common metadata_perturbation : string)
  (n_samples : nat) :
  (get_loc metadata_common (columns modality_1_df) = None \/
   get_loc metadata_common (columns modality_2_df) = None ->
   correlation_between_modalities modality_1_df modality_2_df modality_1 modality_2
     metadata_common metadata_perturbation = Raise KeyError /\
   null_correlation_between_modalities t pos modality_1_df modality_2_df
     modality_1 modality_2 metadata_common metadata_perturbation n_samples
   = Raise KeyError).
Proof.
  unfold correlation_between_modalities, null_correlation_between_modalities, getitem.
  intros [H|H].
  - rewrite H. split; reflexivity.
  - rewrite H. destruct (get_loc metadata_common (columns modality_1_df));
      split; reflexivity.
Qed.

Lemma modalities_missing_common_column_witness :
  (get_loc "Metadata_target" (columns compound_profiles) = None \/
   get_loc "Metadata_target" (columns crispr_profiles) = None) /\
  correlation_between_modalities compound_profiles crispr_profiles "Compounds" "CRISPR"
    "Metadata_target" "Metadata_broad_sample" = Raise KeyError /\
  null_correlation_between_modalities constant_tape 0 compound_profiles crispr_profiles
    "Compounds" "CRISPR" "Metadata_target" "Metadata_broad_sample" 7
  = Raise KeyError.
Proof.
  split; [left; reflexivity|].
  apply (modalities_missing_common_column constant_tape 0 compound_profiles
           crispr_profiles "Compounds" "CRISPR" "Metadata_target"
           "Metadata_broad_sample" 7).
  left. reflexivity.
Defined.






Lemma null_modalities_loop_position (t : tape) (modality_1_df modality_2_df : DataFrame)
  (groups : list cell) (metadata_common metadata_perturbation : string)
  (n : nat) :
  forall (pos : nat) (acc l : list float) (pos' : nat),
  null_modalities_loop n t pos modality_1_df modality_2_df groups
    metadata_common metadata_perturbation acc = Ok (l, pos') ->
  pos' = pos + 2 * n.
Proof.
  induction n as [|n IH]; intros pos acc l pos' H.
  - simpl in H. injection H as _ <-. lia.
  - cbn [null_modalities_loop] in H.
    apply bind_ok in H as [p [_ H]].
    apply bind_ok in H as [d1 [_ H]].
    apply bind_ok in H as [d2 [_ H]].
    apply bind_ok in H as [found [_ H]].
    apply IH in H. lia.
Qed.

(** X17: whenever the cross-modality null sampler returns, it has drawn
    exactly two random numbers per requested sample, whatever the number of
    correlation values each sample contributed: the generator is left at
    position [pos + 2 * n_samples]. *)
Theorem null_modalities_consumes_two_draws_per_sample (t : tape) (pos : nat)
  (modality_1_df modality_2_df : DataFrame)
  (modality_1 modality_2 metadata_common metadata_perturbation : string)
  (n_samples : nat) (null_modalities : list float) (pos' : nat) :
  null_correlation_between_modalities t pos modality_1_df modality_2_df
    modality_1 modality_2 metadata_common metadata_perturbation n_samples
  = Ok (null_modalities, pos') ->
  pos' = pos + 2 * n_samples.
Proof.
  unfold null_correlation_between_modalities. intros H.
  apply bind_ok in H as [c1 [_ H]].
  apply bind_ok in H as [c2 [_ H]].
  apply bind_ok in H as [d1 [_ H]].
  apply bind_ok in H as [d2 [_ H]].
  exact (null_modalities_loop_position _ _ _ _ _ _ _ _ _ _ _ H).
Qed.




Lemma null_modalities_consumes_two_draws_per_sample_witness :
  exists l,
    null_correlation_between_modalities constant_tape 5 compound_profiles crispr_profiles
      "Compounds" "CRISPR" "Metadata_genes" "Metadata_broad_sample" 4 = Ok (l, 13) /\
    13 = 5 + 2 * 4.
Proof.
  destruct (null_correlation_between_modalities constant_tape 5 compound_profiles
              crispr_profiles "Compounds" "CRISPR" "Metadata_genes"
              "Metadata_broad_sample" 4) as [[l p]|e] eqn:E;
    [|vm_compute in E; discriminate E].
  assert (Hp : p = 13).
  { vm_compute in E. injection E as _ <-. reflexivity. }
  subst p. exists l. split; [reflexivity|].
  exact (null_modalities_consumes_two_draws_per_sample constant_tape 5 compound_profiles
           crispr_profiles "Compounds" "CRISPR" "Metadata_genes" "Metadata_broad_sample"
           4 l 13 E).
Defined.

(** ** The sphering transformer at the edges *)

Lemma mapM_to_float_ok (e : exn) (row : list cell) (fr : list float) :
  mapM (to_float e) row = Ok fr ->
  Forall (fun c => is_str c = false) row /\ fr = map float_of row.
Proof.
  revert fr. induction row as [|c row IH]; intros fr H.
  - simpl in H. injection H as <-. split; [constructor|reflexivity].
  - cbn [mapM] in H. apply bind_ok in H as [x [Hx H]].
    apply bind_ok in H as [xs [Hxs H]]. injection H as <-.
    destruct (IH xs Hxs) as [Hrow ->].
    destruct c as [s|y]; [discriminate|]. simpl in Hx. injection Hx as <-.
    split; [constructor; [reflexivity|exact Hrow]|reflexivity].
Qed.

Lemma astype_float64_ok (e : exn) (a : object_array) (X : matrix) :
  astype_float64 e a = Ok X ->
  numeric_array a /\ X = {| ncols := ocols a; mrows := map (map float_of) (orows a) |}.
Proof.
  unfold astype_float64, numeric_array. intros H.
  apply bind_ok in H as [rows [Hrows H]]. injection H as <-.
  revert rows Hrows. induction (orows a) as [|row l IH]; intros rows Hrows.
  - simpl in Hrows. injection Hrows as <-. split; [constructor|reflexivity].
  - cbn [mapM] in Hrows. apply bind_ok in Hrows as [fr [Hfr Hrows]].
    apply bind_ok in Hrows as [frs [Hfrs Hrows]]. injection Hrows as <-.
    apply mapM_to_float_ok in Hfr as [Hrow ->].
    destruct (IH frs Hfrs) as [Hl Heq]. injection Heq as ->.
    split; [constructor; assumption|reflexivity].
Qed.

(** What an array has when [check_array] lets it through. *)
Lemma check_array_accepts (X : object_array) (Xf : matrix) :
  check_array X = Ok Xf ->
  numeric_array X /\
  Xf = {| ncols := ocols X; mrows := map (map float_of) (orows X) |} /\
  forallb (forallb is_finite) (mrows Xf) = true /\
  orows X <> [] /\ ocols X <> 0.
Proof.
  unfold check_array. intros H. apply bind_ok in H as [X' [HX' H]].
  apply astype_float64_ok in HX' as [Hnum ->]. cbn [mrows ncols] in H.
  destruct (forallb (forallb is_finite) (map (map float_of) (orows X))) eqn:Ef;
    [|discriminate].
  unfold nrows in H. cbn [mrows] in H.
  destruct (Nat.ltb (length (map (map float_of) (orows X))) 1) eqn:E1; [discriminate|].
  destruct (Nat.ltb (ocols X) 1) eqn:E2; [discriminate|].
  injection H as <-. apply Nat.ltb_ge in E1, E2. rewrite length_map in E1.
  split; [exact Hnum|]. split; [reflexivity|]. split; [exact Ef|].
  split.
  - intros E. rewrite E in E1. simpl in E1. lia.
  - lia.
Qed.

Lemma check_array_raises (X : object_array) (e : exn) :
  check_array X = Raise e -> e = ValueError.
Proof.
  unfold check_array.
  destruct (astype_float64 ValueError X) as [X'|e'] eqn:E; cbn [bind].
  - destruct (forallb _ _); [|intros H; injection H as <-; reflexivity].
    destruct (Nat.ltb (nrows X') 1); [intros H; injection H as <-; reflexivity|].
    destruct (Nat.ltb (ncols X') 1); [intros H; injection H as <-; reflexivity|].
    discriminate.
  - intros H. injection H as <-. exact (astype_float64_raise _ _ _ E).
Qed.

Lemma check_array_rejects (X : object_array) :
  has_nonfinite X \/ orows X = [] \/ ocols X = 0 ->
  check_array X = Raise ValueError.
Proof.
  intros H. destruct (check_array X) as [Xf|e] eqn:E.
  - exfalso. apply check_array_accepts in E as [Hnum [-> [Hfin [Hr Hc]]]].
    destruct H as [[row [x [Hrow [Hx Hf]]]]|[H|H]].
    + cbn [mrows] in Hfin. rewrite forallb_forall in Hfin.
      specialize (Hfin (map float_of row) (in_map _ _ _ Hrow)).
      rewrite forallb_forall in Hfin.
      specialize (Hfin (float_of (Num x)) (in_map _ _ _ Hx)). simpl in Hfin.
      rewrite Hfin in Hf. discriminate.
    + exact (Hr H).
    + exact (Hc H).
  - f_equal. exact (check_array_raises X e E).
Qed.

Section FitEdges.

Variable svd : matrix -> result (matrix * list float * matrix).
Variable KneeLocator_elbow : list nat -> list float -> result (option nat).

(** X19: [fit] refuses, with [ValueError], an array that holds a NaN or an
    infinity, no row, or no column; the transformer is returned as it was,
    so that a fresh one is still unfitted and [transform] raises
    [NotFittedError] on it whatever it is given. *)
Theorem fit_refuses_invalid_array (self : ZCA_corr) (X Y : object_array) :
  has_nonfinite X \/ orows X = [] \/ ocols X = 0 ->
  fit svd KneeLocator_elbow self X = (self, Raise ValueError) /\
  (mean_ self = None ->
   transform (fst (fit svd KneeLocator_elbow self X)) Y = Raise NotFittedError).
Proof.
  intros H. apply check_array_rejects in H.
  unfold fit. rewrite H. split; [reflexivity|].
  intros Hm. unfold transform. cbn [fst]. rewrite Hm. reflexivity.
Qed.

(** X20: when [fit] raises after the validation of its argument (in the
    decomposition, the elbow search or a later product), the transformer
    already carries the column means of the argument and keeps whatever
    sphereing matrix it had; on a fresh transformer [check_is_fitted] then
    passes, and [transform] of an array of numbers with the same number of
    columns raises [AttributeError]. *)
Theorem fit_failure_leaves_means (self : ZCA_corr) (X Y : object_array)
  (Xf : matrix) (e : exn) :
  check_array X = Ok Xf ->
  snd (fit svd KneeLocator_elbow self X) = Raise e ->
  mean_ (fst (fit svd KneeLocator_elbow self X)) = Some (column_means Xf) /\
  sphere_ (fst (fit svd KneeLocator_elbow self X)) = sphere_ self /\
  (sphere_ self = None -> numeric_array Y -> ocols Y = ocols X ->
   transform (fst (fit svd KneeLocator_elbow self X)) Y = Raise AttributeError).
Proof.
  intros Hcheck. unfold fit. rewrite Hcheck. fold (column_means Xf).
  destruct (fit_sphere svd KneeLocator_elbow Xf (column_means Xf)) as [W|e'];
    cbn [fst snd]; [discriminate|].
  intros _. split; [reflexivity|]. split; [reflexivity|].
  cbn [sphere_]. intros Hs Hnum Hcols.
  unfold transform, as_float_array. cbn [mean_ sphere_].
  rewrite (astype_float64_numeric ValueError Y Hnum). cbn [bind].
  unfold broadcast_sub. cbn [ncols]. rewrite column_means_length.
  destruct (check_array_shape X Xf Hcheck) as [Hd _].
  rewrite Hcols, Hd, Nat.eqb_refl. cbn [bind]. rewrite Hs. reflexivity.
Qed.

(** X21: when no elbow is found ([kneedle.elbow] is [None]) and there are
    at least two features, [fit] does not fail at the indexing: the bound
    becomes a 1 x d array, the diagonal taken of the 1 x d inverse roots
    has one entry, and the product with the d x d factor [G] raises
    [ValueError]. *)
Theorem fit_without_elbow_raises (self : ZCA_corr) (X : object_array) (Xf : matrix)
  (G Vh : matrix) (T : list float) :
  check_array X = Ok Xf ->
  svd (map_matrix nan_to_num (DataFrame_corr (centred_data Xf))) = Ok (G, T, Vh) ->
  KneeLocator_elbow (seq 0 (length T)) T = Ok None ->
  ncols G = length T ->
  2 <= length T ->
  snd (fit svd KneeLocator_elbow self X) = Raise ValueError.
Proof.
  intros Hcheck Hsvd Hknee HG HT. unfold fit. rewrite Hcheck. fold (column_means Xf).
  assert (E : fit_sphere svd KneeLocator_elbow Xf (column_means Xf) = Raise ValueError).
  { unfold fit_sphere. rewrite centred_data_broadcast. cbn [bind].
    destruct (dot_transpose_defined (centred_data Xf)) as [xtx ->]. cbn [bind].
    rewrite Hsvd. cbn [bind fst snd].
    unfold estimate_regularization. rewrite Hknee. cbn [bind].
    unfold clip_min. cbn [ncols]. rewrite Nat.eqb_refl. cbn [bind map_nd diag_nd mrows].
    unfold dot_nd at 1.
    rewrite diag_of_matrix_length. unfold nrows. cbn [mrows ncols map_matrix length map].
    rewrite HG.
    destruct (length T) as [|[|n]] eqn:ET; [lia|lia|]. reflexivity. }
  rewrite E. reflexivity.
Qed.

(** X22: a [fit] that returns can be followed by [transform] on any array
    of numbers with as many columns as the array fitted: it returns one
    row per row of its argument and one column per feature (a vector with
    one entry per row in the single case where the stored array is a
    vector: one feature and no elbow). *)
Theorem transform_after_fit (self st : ZCA_corr) (X Y : object_array) :
  fit svd KneeLocator_elbow self X = (st, Ok tt) ->
  numeric_array Y ->
  ocols Y = ocols X ->
  exists vals,
    transform st Y = Ok vals /\
    match vals with
    | Arr2 r => nrows r = length (orows Y) /\ ncols r = ocols X
    | Arr1 v => length v = length (orows Y) /\ ocols X = 1
    | Arr0 _ => False
    end.
Proof.
  intros Hfit Hnum Hcols.
  apply (fit_returns svd KneeLocator_elbow) in Hfit as [Xf [W [Hcheck [Hsphere ->]]]].
  destruct (check_array_shape X Xf Hcheck) as [Hd [Hd1 _]].
  apply fit_sphere_shape in Hsphere. rewrite Hd in Hsphere.
  destruct (transform_fitted
              {| copy := copy self; mean_ := Some (column_means Xf); sphere_ := Some W |}
              (column_means Xf) W Y (ocols X))
    as [vals [Hvals Hshape]];
    [reflexivity|rewrite column_means_length; exact Hd|reflexivity|exact Hsphere
    |exact Hcols|exact Hnum|].
  exists vals. split; [exact Hvals|].
  destruct vals as [x|v|r]; [exact Hshape| |].
  - destruct Hshape as [Hv Hle]. split; [exact Hv|lia].
  - destruct Hshape as [Hr [Hc _]]. split; [exact Hr|exact Hc].
Qed.

End FitEdges.

Lemma fit_refuses_invalid_array_witness :
  (has_nonfinite no_rows \/ orows no_rows = [] \/ ocols no_rows = 0) /\
  fit svd_of_diagonal elbow_at_first (ZCA_corr_init false) no_rows
  = (ZCA_corr_init false, Raise ValueError) /\
  (mean_ (ZCA_corr_init false) = None ->
   transform (fst (fit svd_of_diagonal elbow_at_first (ZCA_corr_init false) no_rows))
     two_wells = Raise NotFittedError).
Proof.
  split; [right; left; reflexivity|].
  apply (fit_refuses_invalid_array svd_of_diagonal elbow_at_first (ZCA_corr_init false)
           no_rows two_wells).
  right. left. reflexivity.
Defined.

Lemma fit_failure_leaves_means_witness :
  check_array reference_wells = Ok reference_matrix /\
  snd (fit svd_not_converging elbow_at_first (ZCA_corr_init false) reference_wells)
  = Raise LinAlgError /\
  mean_ (fst (fit svd_not_converging elbow_at_first (ZCA_corr_init false) reference_wells))
  = Some (column_means reference_matrix) /\
  sphere_ (fst (fit svd_not_converging elbow_at_first (ZCA_corr_init false)
                  reference_wells))
  = sphere_ (ZCA_corr_init false) /\
  (sphere_ (ZCA_corr_init false) = None -> numeric_array two_wells ->
   ocols two_wells = ocols reference_wells ->
   transform (fst (fit svd_not_converging elbow_at_first (ZCA_corr_init false)
                     reference_wells)) two_wells = Raise AttributeError).
Proof.
  split; [vm_compute; reflexivity|]. split; [vm_compute; reflexivity|].
  apply (fit_failure_leaves_means svd_not_converging elbow_at_first (ZCA_corr_init false)
           reference_wells two_wells reference_matrix LinAlgError);
    vm_compute; reflexivity.
Defined.

Lemma fit_without_elbow_raises_witness :
  check_array reference_wells = Ok reference_matrix /\
  svd_of_diagonal (map_matrix nan_to_num (DataFrame_corr (centred_data reference_matrix)))
  = Ok (identity_matrix 2, [1%float; 1%float], identity_matrix 2) /\
  no_elbow (seq 0 (length [1%float; 1%float])) [1%float; 1%float] = Ok None /\
  ncols (identity_matrix 2) = length [1%float; 1%float] /\
  2 <= length [1%float; 1%float] /\
  snd (fit svd_of_diagonal no_elbow (ZCA_corr_init false) reference_wells)
  = Raise ValueError.
Proof.
  split; [vm_compute; reflexivity|]. split; [vm_compute; reflexivity|].
  split; [reflexivity|]. split; [reflexivity|]. split; [simpl; lia|].
  apply (fit_without_elbow_raises svd_of_diagonal no_elbow (ZCA_corr_init false)
           reference_wells reference_matrix (identity_matrix 2) (identity_matrix 2)
           [1%float; 1%float]);
    vm_compute; reflexivity.
Defined.

Lemma transform_after_fit_witness :
  fit svd_of_diagonal elbow_at_first (ZCA_corr_init false) reference_wells
  = (fitted_on_reference, Ok tt) /\
  numeric_array two_wells /\
  ocols two_wells = ocols reference_wells /\
  exists vals,
    transform fitted_on_reference two_wells = Ok vals /\
    match vals with
    | Arr2 r => nrows r = length (orows two_wells) /\ ncols r = ocols reference_wells
    | Arr1 v => length v = length (orows two_wells) /\ ocols reference_wells = 1
    | Arr0 _ => False
    end.
Proof.
  split; [vm_compute; reflexivity|].
  split; [repeat constructor|]. split; [reflexivity|].
  apply (transform_after_fit svd_of_diagonal elbow_at_first (ZCA_corr_init false)
           fitted_on_reference reference_wells two_wells).
  - vm_compute. reflexivity.
  - repeat constructor.
  - reflexivity.
Defined.

(** ** Sphering a plate: when it raises and what it can return *)

Lemma control_features_none (plate : DataFrame) (jc : nat) :
  (forall row, In row (values plate) -> is_negcon jc row = false) ->
  orows (control_features plate jc) = [].
Proof.
  intros H. unfold control_features, feature_cells. cbn [orows].
  rewrite (filter_none _ _ H). reflexivity.
Qed.

(** X23: on a plate without a negative-control well [sphere_plate_zca_corr]
    returns no table, whatever the two library routines do: without the
    column "Metadata_control_type" the attribute access raises
    [AttributeError]; with it, the empty reference array is refused by
    [fit] with [ValueError]. *)
Theorem sphere_plate_zca_corr_without_controls
  (svd : matrix -> result (matrix * list float * matrix))
  (KneeLocator_elbow : list nat -> list float -> result (option nat))
  (plate : DataFrame) :
  (forall jc row, get_loc "Metadata_control_type" (columns plate) = Some jc ->
                  In row (values plate) -> is_negcon jc row = false) ->
  sphere_plate_zca_corr svd KneeLocator_elbow plate
  = Raise (match get_loc "Metadata_control_type" (columns plate) with
           | Some _ => ValueError
           | None => AttributeError
           end).
Proof.
  intros H. destruct (get_loc "Metadata_control_type" (columns plate)) as [jc|] eqn:Hjc.
  - rewrite (sphere_plate_zca_corr_steps svd KneeLocator_elbow plate jc Hjc). cbv zeta.
    unfold fit.
    rewrite (check_array_rejects (control_features plate jc)); [reflexivity|].
    right. left. apply control_features_none. intros row. apply H. reflexivity.
  - unfold sphere_plate_zca_corr, getitem. rewrite Hjc. reflexivity.
Qed.

Lemma sphere_plate_zca_corr_without_controls_witness :
  (forall jc row,
      get_loc "Metadata_control_type" (columns plate_without_controls) = Some jc ->
      In row (values plate_without_controls) -> is_negcon jc row = false) /\
  sphere_plate_zca_corr svd_of_diagonal elbow_at_first plate_without_controls
  = Raise ValueError /\
  sphere_plate_zca_corr svd_of_diagonal elbow_at_first plate_without_control_column
  = Raise AttributeError.
Proof.
  assert (H : forall jc row,
             get_loc "Metadata_control_type" (columns plate_without_controls) = Some jc ->
             In row (values plate_without_controls) -> is_negcon jc row = false).
  { intros jc row Hjc. injection Hjc as <-. intros [<-|[<-|[]]]; reflexivity. }
  split; [exact H|]. split.
  - exact (sphere_plate_zca_corr_without_controls svd_of_diagonal elbow_at_first
             plate_without_controls H).
  - reflexivity.
Defined.

Lemma filter_count_le {A : Type} (p q : A -> bool) (l : list A) :
  (forall x, In x l -> p x = true -> q x = true -> False) ->
  length (filter p l) + length (filter q l) <= length l.
Proof.
  induction l as [|a l IH]; intros H; simpl; [lia|].
  assert (IH' := IH (fun x Hx => H x (or_intror Hx))).
  destruct (p a) eqn:Ep; destruct (q a) eqn:Eq; simpl; try lia.
  exfalso. exact (H a (or_introl eq_refl) Ep Eq).
Qed.

Lemma filter_count_cover {A : Type} (p q : A -> bool) (l : list A) :
  (forall x, In x l -> p x = true -> q x = true -> False) ->
  length (filter p l) + length (filter q l) = length l ->
  forall x, In x l -> p x = true \/ q x = true.
Proof.
  induction l as [|a l IH]; intros H Hlen x Hx; [destruct Hx|].
  assert (Hle := filter_count_le p q l (fun y Hy => H y (or_intror Hy))).
  simpl in Hlen.
  destruct Hx as [<-|Hx].
  - destruct (p a); [left; reflexivity|].
    destruct (q a); [right; reflexivity|]. simpl in Hlen. lia.
  - apply IH; [intros y Hy; apply H; right; exact Hy| |exact Hx].
    destruct (p a) eqn:Ep; destruct (q a) eqn:Eq; simpl in Hlen; try lia.
    exfalso. exact (H a (or_introl eq_refl) Ep Eq).
Qed.

Lemma counted_columns_partitioned (plate : DataFrame) :
  length (get_featurecols plate) + length (get_metacols plate) = length (columns plate) ->
  partitioned plate.
Proof.
  unfold get_featurecols, get_metacols. intros Hlen c Hc Hpre.
  destruct (filter_count_cover _ _ (columns plate)
              (fun x _ Hp Hq =>
                 eq_ind true (fun b => negb b = true -> False)
                        (fun H => Bool.diff_false_true H) _
                        (eq_sym (prefix_Metadata_underscore x Hq)) Hp)
              Hlen c Hc) as [H|H].
  - rewrite Hpre in H. discriminate.
  - exact H.
Qed.

(** X24: whenever [sphere_plate_zca_corr] returns a table, whatever the two
    library routines are, the plate has a control-type column and at least
    one negative-control well, every column label of the plate that starts
    with "Metadata" goes on with the underscore, and the table returned
    has the shape and the row index of the plate and the feature columns
    first, then the metadata columns. *)
Theorem sphere_plate_zca_corr_returns_only
  (svd : matrix -> result (matrix * list float * matrix))
  (KneeLocator_elbow : list nat -> list float -> result (option nat))
  (plate combined : DataFrame) :
  sphere_plate_zca_corr svd KneeLocator_elbow plate = Ok combined ->
  (exists jc row, get_loc "Metadata_control_type" (columns plate) = Some jc /\
                  In row (values plate) /\ is_negcon jc row = true) /\
  partitioned plate /\
  shape combined = shape plate /\
  index combined = index plate /\
  columns combined = get_featurecols plate ++ get_metacols plate.
Proof.
  intros Hret.
  pose proof (sphere_plate_zca_corr_counts_columns svd KneeLocator_elbow plate combined
                Hret) as Hcount.
  destruct (get_loc "Metadata_control_type" (columns plate)) as [jc|] eqn:Hjc.
  2: { unfold sphere_plate_zca_corr, getitem in Hret. rewrite Hjc in Hret.
       discriminate. }
  rewrite (sphere_plate_zca_corr_steps svd KneeLocator_elbow plate jc Hjc) in Hret.
  cbv zeta in Hret.
  apply bind_ok in Hret as [u [Hfit Hret]].
  apply bind_ok in Hret as [vals [_ Hret]].
  apply bind_ok in Hret as [feature_df [Hdf Hret]].
  assert (Hfd : columns feature_df = get_featurecols plate /\
                index feature_df = index plate).
  { unfold DataFrame_of_array in Hdf.
    destruct vals as [x|v|r]; [discriminate| |];
      match type of Hdf with
      | (if ?c then _ else _) = _ => destruct c; [|discriminate]
      end; injection Hdf as <-; split; reflexivity. }
  destruct Hfd as [Hcols Hidx].
  match type of Hret with
  | (if ?c then _ else _) = _ => destruct c eqn:E; [|discriminate]
  end.
  injection Hret as <-.
  apply andb_true_iff in E as [E1 E2]. apply Nat.eqb_eq in E1, E2.
  split.
  - unfold fit in Hfit.
    destruct (check_array (control_features plate jc)) as [Xf|e] eqn:Hcheck;
      [|discriminate].
    apply check_array_accepts in Hcheck as [_ [_ [_ [Hrows _]]]].
    unfold control_features, feature_cells in Hrows. cbn [orows] in Hrows.
    destruct (filter (is_negcon jc) (values plate)) as [|row rows] eqn:Ef;
      [exfalso; apply Hrows; reflexivity|].
    assert (Hin : In row (filter (is_negcon jc) (values plate)))
      by (rewrite Ef; left; reflexivity).
    apply filter_In in Hin as [Hin Hneg].
    exists jc, row. split; [reflexivity|]. split; assumption.
  - split; [exact (counted_columns_partitioned plate Hcount)|].
    split.
    + unfold shape in *. cbn [fst snd] in E1, E2. rewrite E1, E2. reflexivity.
    + split; [exact Hidx|]. unfold concat_axis1. cbn [columns].
      rewrite Hcols. reflexivity.
Qed.

Lemma sphere_plate_zca_corr_returns_only_witness :
  exists combined,
    sphere_plate_zca_corr svd_of_diagonal elbow_at_first plate_of_eight = Ok combined /\
    (exists jc row,
        get_loc "Metadata_control_type" (columns plate_of_eight) = Some jc /\
        In row (values plate_of_eight) /\ is_negcon jc row = true) /\
    partitioned plate_of_eight /\
    shape combined = shape plate_of_eight /\
    index combined = index plate_of_eight /\
    columns combined = get_featurecols plate_of_eight ++ get_metacols plate_of_eight.
Proof.
  destruct (sphere_plate_zca_corr svd_of_diagonal elbow_at_first plate_of_eight)
    as [combined|e] eqn:E; [|vm_compute in E; discriminate E].
  exists combined. split; [reflexivity|].
  exact (sphere_plate_zca_corr_returns_only svd_of_diagonal elbow_at_first
           plate_of_eight combined E).
Defined.

(** ** Sphering, then the well filter *)

Lemma map_mask_filter {A B : Type} (f : A -> B) (mask : list bool) (l : list A) :
  map f (mask_filter mask l) = mask_filter mask (map f l).
Proof.
  revert l. induction mask as [|b mask IH]; intros [|a l]; simpl; try reflexivity.
  destruct b; simpl; rewrite IH; reflexivity.
Qed.

(** The table a returning [sphere_plate_zca_corr] builds: rows of feature
    cells followed by the metadata cells of the plate. *)
Lemma sphere_plate_zca_corr_rows
  (svd : matrix -> result (matrix * list float * matrix))
  (KneeLocator_elbow : list nat -> list float -> result (option nat))
  (plate combined : DataFrame) :
  length (index plate) = length (values plate) ->
  sphere_plate_zca_corr svd KneeLocator_elbow plate = Ok combined ->
  exists F,
    combined = {| columns := get_featurecols plate ++ get_metacols plate;
                  index := index plate;
                  values := map (fun p => fst p ++ snd p)
                                (combine F (values (metadata_of plate))) |} /\
    length F = length (values plate) /\
    Forall (fun fr => length fr = length (get_featurecols plate)) F.
Proof.
  intros Hidx Hret.
  destruct (get_loc "Metadata_control_type" (columns plate)) as [jc|] eqn:Hjc.
  2: { unfold sphere_plate_zca_corr, getitem in Hret. rewrite Hjc in Hret.
       discriminate. }
  rewrite (sphere_plate_zca_corr_steps svd KneeLocator_elbow plate jc Hjc) in Hret.
  cbv zeta in Hret.
  apply bind_ok in Hret as [u [Hfit Hret]].
  apply bind_ok in Hret as [vals [Htr Hret]].
  apply bind_ok in Hret as [feature_df [Hdf Hret]].
  destruct (fit svd KneeLocator_elbow (ZCA_corr_init false) (control_features plate jc))
    as [st r] eqn:Efit.
  cbn [fst snd] in Hfit, Htr. subst r. destruct u.
  apply (fit_returns svd KneeLocator_elbow) in Efit as [Xf [W [Hcheck [Hsphere ->]]]].
  apply check_array_shape in Hcheck as [Hd _].
  apply fit_sphere_shape in Hsphere. rewrite Hd in Hsphere.
  change (ocols (control_features plate jc)) with (length (get_featurecols plate))
    in Hsphere, Hd.
  assert (Hnum : numeric_array (plate_features plate)).
  { unfold transform, as_float_array in Htr. cbn [mean_] in Htr.
    apply bind_ok in Htr as [Xm [HXm _]].
    apply astype_float64_ok in HXm as [Hnum _]. exact Hnum. }
  destruct (transform_fitted
              {| copy := copy (ZCA_corr_init false);
                 mean_ := Some (column_means Xf);
                 sphere_ := Some W |}
              (column_means Xf) W (plate_features plate)
              (length (get_featurecols plate)))
    as [vals' [Htr' Hvals]];
    [reflexivity|rewrite column_means_length; exact Hd|reflexivity|exact Hsphere
    |reflexivity|exact Hnum|].
  rewrite Htr in Htr'. injection Htr' as <-.
  assert (Hrows : length (orows (plate_features plate)) = length (values plate))
    by (simpl; apply length_map).
  rewrite Hrows in Hvals.
  assert (HF : columns feature_df = get_featurecols plate /\
               index feature_df = index plate /\
               length (values feature_df) = length (values plate) /\
               Forall (fun fr => length fr = length (get_featurecols plate))
                      (values feature_df)).
  { unfold DataFrame_of_array in Hdf. destruct vals as [x|v|m]; [discriminate| |].
    - destruct Hvals as [Hv Hle].
      destruct (Nat.eqb (length v) (length (index plate))
                && Nat.eqb 1 (length (get_featurecols plate))) eqn:E; [|discriminate].
      injection Hdf as <-. cbn [columns index values].
      apply andb_true_iff in E as [_ E]. apply Nat.eqb_eq in E.
      split; [reflexivity|]. split; [reflexivity|].
      split; [rewrite length_map; exact Hv|].
      apply Forall_forall. intros fr Hfr. apply in_map_iff in Hfr as [x [<- _]].
      simpl. exact E.
    - destruct Hvals as [Hr [Hc Hrect]].
      destruct (Nat.eqb (nrows m) (length (index plate))
                && Nat.eqb (ncols m) (length (get_featurecols plate))) eqn:E;
        [|discriminate].
      injection Hdf as <-. cbn [columns index values].
      split; [reflexivity|]. split; [reflexivity|].
      split; [rewrite length_map; exact Hr|].
      apply Forall_forall. intros fr Hfr. apply in_map_iff in Hfr as [row [<- Hrow]].
      rewrite length_map. rewrite Forall_forall in Hrect. apply Hrect. exact Hrow. }
  destruct HF as [Hcols [Hindex [Hlen Hrect]]].
  match type of Hret with
  | (if ?c then _ else _) = _ => destruct c; [|discriminate]
  end.
  injection Hret as <-. exists (values feature_df).
  split; [|split; assumption].
  unfold concat_axis1. rewrite Hcols, Hindex. reflexivity.
Qed.

Lemma metadata_label (df : DataFrame) (c : string) (j : nat) :
  get_loc c (columns df) = Some j ->
  String.prefix "Metadata_" c = true ->
  In c (get_metacols df).
Proof.
  intros Hj Hp. unfold get_metacols. apply filter_In. split; [|exact Hp].
  apply get_loc_lt in Hj as [Hlt Hnth]. rewrite <- Hnth. apply nth_In. exact Hlt.
Qed.

Lemma column_of_getitem (df : DataFrame) (c : string) (col : list cell) :
  getitem df c = Ok col ->
  exists j, get_loc c (columns df) = Some j /\ col = map (cell_at j) (values df).
Proof.
  unfold getitem. destruct (get_loc c (columns df)) as [j|]; [|discriminate].
  intros H. injection H as <-. exists j. split; reflexivity.
Qed.

Lemma filter_by_columns (rows rows' : list (list cell)) (jc jb jc' jb' : nat) :
  map (cell_at jc') rows' = map (cell_at jc) rows ->
  map (cell_at jb') rows' = map (cell_at jb) rows ->
  map (fun r => negb (is_negcon jc' r) && negb (lacks_perturbation jb' r)) rows'
  = map (fun r => negb (is_negcon jc r) && negb (lacks_perturbation jb r)) rows.
Proof.
  revert rows'. induction rows as [|r rows IH]; intros [|r' rows'] Hc Hb;
    simpl in *; try reflexivity; try discriminate.
  injection Hc as Hc1 Hc. injection Hb as Hb1 Hb.
  unfold is_negcon, lacks_perturbation. rewrite Hc1, Hb1. f_equal.
  apply IH; assumption.
Qed.

Lemma getitem_filtered (df : DataFrame) (idx : list Z) (mask : list bool) (c : string) :
  getitem {| columns := columns df; index := idx; values := mask_filter mask (values df) |} c
  = (col <- getitem df c ;; Ok (mask_filter mask col)).
Proof.
  unfold getitem. cbn [columns values].
  destruct (get_loc c (columns df)); [|reflexivity].
  cbn [bind]. rewrite map_mask_filter. reflexivity.
Qed.

(** X25: sphering does not disturb the well filter that follows it in the
    pipelines.  For a plate with as many row labels as rows on which
    [sphere_plate_zca_corr] returns, and which the filter accepts,
    [remove_negcon_empty_wells] accepts the sphered table too, keeps as
    many wells, and every metadata column of its result holds the cells
    it holds when the filter is applied to the plate itself. *)
Theorem remove_negcon_empty_wells_after_sphering
  (svd : matrix -> result (matrix * list float * matrix))
  (KneeLocator_elbow : list nat -> list float -> result (option nat))
  (plate combined out : DataFrame) :
  length (index plate) = length (values plate) ->
  sphere_plate_zca_corr svd KneeLocator_elbow plate = Ok combined ->
  remove_negcon_empty_wells plate = Ok out ->
  exists out',
    remove_negcon_empty_wells combined = Ok out' /\
    len out' = len out /\
    index out' = index out /\
    (forall c, In c (get_metacols plate) -> getitem out' c = getitem out c).
Proof.
  intros Hidx Hs Hr.
  destruct (sphere_plate_zca_corr_rows svd KneeLocator_elbow plate combined Hidx Hs)
    as [F [-> [HF Hrect]]].
  assert (Hkept : forall c, In c (get_metacols plate) ->
            getitem {| columns := get_featurecols plate ++ get_metacols plate;
                       index := index plate;
                       values := map (fun p => fst p ++ snd p)
                                     (combine F (values (metadata_of plate))) |} c
            = getitem plate c)
    by (intros c Hc; apply metadata_column_kept; assumption).
  set (combined := {| columns := get_featurecols plate ++ get_metacols plate;
                      index := index plate;
                      values := map (fun p => fst p ++ snd p)
                                    (combine F (values (metadata_of plate))) |}) in *.
  destruct (remove_negcon_empty_wells_columns plate out Hr) as [jc [jb [Hjc Hjb]]].
  assert (Hc : exists jc', get_loc "Metadata_control_type" (columns combined) = Some jc' /\
                           map (cell_at jc') (values combined)
                           = map (cell_at jc) (values plate)).
  { pose proof (Hkept _ (metadata_label plate _ jc Hjc eq_refl)) as H.
    unfold getitem in H at 2. rewrite Hjc in H.
    apply column_of_getitem in H as [jc' [H1 H2]]. exists jc'. split; [exact H1|].
    symmetry. exact H2. }
  assert (Hb : exists jb', get_loc "Metadata_broad_sample" (columns combined) = Some jb' /\
                           map (cell_at jb') (values combined)
                           = map (cell_at jb) (values plate)).
  { pose proof (Hkept _ (metadata_label plate _ jb Hjb eq_refl)) as H.
    unfold getitem in H at 2. rewrite Hjb in H.
    apply column_of_getitem in H as [jb' [H1 H2]]. exists jb'. split; [exact H1|].
    symmetry. exact H2. }
  destruct Hc as [jc' [Hjc' Hcc]]. destruct Hb as [jb' [Hjb' Hbb]].
  rewrite (remove_negcon_empty_wells_value plate jc jb Hjc Hjb) in Hr.
  injection Hr as <-.
  rewrite (remove_negcon_empty_wells_value combined jc' jb' Hjc' Hjb').
  eexists. split; [reflexivity|].
  pose proof (filter_by_columns (values plate) (values combined) jc jb jc' jb' Hcc Hbb)
    as Hmask.
  assert (Hlen : length (filter (fun r => negb (is_negcon jc' r)
                                          && negb (lacks_perturbation jb' r))
                                (values combined))
                 = length (filter (fun r => negb (is_negcon jc r)
                                            && negb (lacks_perturbation jb r))
                                  (values plate))).
  { rewrite <- (mask_filter_map _ (values combined)), <- (mask_filter_map _ (values plate)).
    rewrite Hmask.
    rewrite <- (length_map (fun _ => tt) (mask_filter _ (values combined))).
    rewrite <- (length_map (fun _ => tt) (mask_filter _ (values plate))).
    rewrite !map_mask_filter. f_equal. f_equal.
    apply (f_equal (@length bool)) in Hmask. rewrite !length_map in Hmask.
    clear - Hmask. revert Hmask. generalize (values combined) (values plate).
    induction l as [|a l IH]; intros [|b l'] H; simpl in *;
      try reflexivity; try discriminate.
    f_equal. apply IH. lia. }
  split; [unfold len; cbn [values]; exact Hlen|].
  split; [cbn [index]; rewrite Hlen; reflexivity|].
  intros c Hcm. pose proof (Hkept c Hcm) as Hcol.
  rewrite <- (mask_filter_map _ (values combined)), <- (mask_filter_map _ (values plate)).
  rewrite !getitem_filtered, Hmask, Hcol. reflexivity.
Qed.

Lemma remove_negcon_empty_wells_after_sphering_witness :
  length (index plate_of_six) = length (values plate_of_six) /\
  exists combined out,
    sphere_plate_zca_corr svd_of_diagonal elbow_at_first plate_of_six = Ok combined /\
    remove_negcon_empty_wells plate_of_six = Ok out /\
    len out = 1 /\
    exists out',
      remove_negcon_empty_wells combined = Ok out' /\
      len out' = len out /\
      index out' = index out /\
      (forall c, In c (get_metacols plate_of_six) -> getitem out' c = getitem out c).
Proof.
  split; [reflexivity|].
  destruct (sphere_plate_zca_corr svd_of_diagonal elbow_at_first plate_of_six)
    as [combined|e] eqn:Es; [|vm_compute in Es; discriminate Es].
  destruct (remove_negcon_empty_wells plate_of_six) as [out|e] eqn:Er;
    [|vm_compute in Er; discriminate Er].
  exists combined, out. split; [reflexivity|]. split; [reflexivity|].
  split; [vm_compute in Er; injection Er as <-; reflexivity|].
  exact (remove_negcon_empty_wells_after_sphering svd_of_diagonal elbow_at_first
           plate_of_six combined out eq_refl Es Er).
Defined.

(** ** The null sampler: what a returned distribution looks like *)

Lemma non_replicates_loop_passes (fuel : nat) (t : tape) (df : DataFrame)
  (n_samples k : nat) (key : string) :
  forall (pos : nat) (acc l : list float) (pos' : nat),
  non_replicates_loop fuel t pos df n_samples k key acc = Some (Ok (l, pos')) ->
  exists passes,
    passes <= fuel /\ n_samples <= length acc + passes /\ pos' = pos + k * passes.
Proof.
  induction fuel as [|fuel IH]; intros pos acc l pos'; simpl.
  - destruct (Nat.ltb (length acc) n_samples) eqn:E; [discriminate|].
    intros H. injection H as _ <-. apply Nat.ltb_ge in E. exists 0. lia.
  - destruct (Nat.ltb (length acc) n_samples) eqn:E.
    + destruct (non_replicates_draw t pos df k key) as [[c|]|e]; [| |discriminate];
        intros H; apply IH in H as [passes [H1 [H2 H3]]]; exists (S passes);
        try rewrite length_app in H2; simpl in H2; nia.
    + intros H. injection H as _ <-. apply Nat.ltb_ge in E. exists 0. lia.
Qed.

Lemma non_replicates_loop_more_fuel (fuel extra : nat) (t : tape) (df : DataFrame)
  (n_samples k : nat) (key : string) :
  forall (pos : nat) (acc : list float) (r : result (list float * nat)),
  non_replicates_loop fuel t pos df n_samples k key acc = Some r ->
  non_replicates_loop (fuel + extra) t pos df n_samples k key acc = Some r.
Proof.
  induction fuel as [|fuel IH]; intros pos acc r.
  - cbn [non_replicates_loop Nat.add].
    destruct (Nat.ltb (length acc) n_samples) eqn:E; [discriminate|].
    intros H. destruct extra; cbn [non_replicates_loop]; rewrite E; exact H.
  - cbn [non_replicates_loop Nat.add].
    destruct (Nat.ltb (length acc) n_samples); [|intros H; exact H].
    destruct (non_replicates_draw t pos df k key) as [[c|]|e];
      [apply IH|apply IH|intros H; exact H].
Qed.

(** X26: whenever the null sampler returns a distribution, on any table
    and with any generator, the distribution has exactly [n_samples]
    values, the generator has advanced by [n_replicates] draws for each of
    at least [n_samples] passes, and a larger bound on the number of passes
    gives the same result. *)
Theorem corr_between_non_replicates_returned (fuel : nat) (t : tape) (pos : nat)
  (df : DataFrame) (n_samples n_replicates : nat) (key : string)
  (null_corr : list float) (pos' : nat) :
  corr_between_non_replicates fuel t pos df n_samples n_replicates key
  = Some (Ok (null_corr, pos')) ->
  length null_corr = n_samples /\
  (exists passes, n_samples <= passes <= fuel /\ pos' = pos + n_replicates * passes) /\
  (forall extra,
      corr_between_non_replicates (fuel + extra) t pos df n_samples n_replicates key
      = Some (Ok (null_corr, pos'))).
Proof.
  unfold corr_between_non_replicates. intros H. split; [|split].
  - apply (non_replicates_loop_length fuel t pos (reset_index_drop df) n_samples
             n_replicates key [] null_corr pos'); [simpl; lia|exact H].
  - apply non_replicates_loop_passes in H as [passes [H1 [H2 H3]]].
    exists passes. simpl in H2. lia.
  - intros extra. apply non_replicates_loop_more_fuel. exact H.
Qed.

Lemma corr_between_non_replicates_returned_witness :
  exists null_corr,
    corr_between_non_replicates 3 alternating_tape 0 two_compounds 2 2
      "Metadata_pert_iname" = Some (Ok (null_corr, 4)) /\
    length null_corr = 2 /\
    (exists passes, 2 <= passes <= 3 /\ 4 = 0 + 2 * passes) /\
    (forall extra,
        corr_between_non_replicates (3 + extra) alternating_tape 0 two_compounds 2 2
          "Metadata_pert_iname" = Some (Ok (null_corr, 4))).
Proof.
  destruct (corr_between_non_replicates 3 alternating_tape 0 two_compounds 2 2
              "Metadata_pert_iname") as [[[l p]|e]|] eqn:E;
    [|vm_compute in E; discriminate E|vm_compute in E; discriminate E].
  assert (Hp : p = 4).
  { vm_compute in E. injection E as _ <-. reflexivity. }
  subst p. exists l. split; [reflexivity|].
  exact (corr_between_non_replicates_returned 3 alternating_tape 0 two_compounds 2 2
           "Metadata_pert_iname" l 4 E).
Defined.

(** ** Cross-modality correlation: columns of one modality only *)

Lemma get_loc_app_l (x : string) (l l' : list string) (j : nat) :
  get_loc x l = Some j -> get_loc x (l ++ l') = Some j.
Proof.
  revert j. induction l as [|c l IH]; intros j; simpl; [discriminate|].
  destruct (String.eqb x c); [intros H; exact H|].
  destruct (get_loc x l) as [k|]; [|discriminate].
  rewrite (IH k eq_refl). intros H. exact H.
Qed.

Lemma get_loc_None (x : string) (l : list string) :
  get_loc x l = None -> ~ In x l.
Proof.
  intros H Hin. destruct (get_loc_In x l Hin) as [j Hj]. rewrite Hj in H. discriminate.
Qed.

Lemma map_combine_fst {A B C : Type} (h : A -> C) (g : A * B -> C) (l : list A)
  (col : list B) :
  length col = length l ->
  (forall a b, In a l -> g (a, b) = h a) ->
  map g (combine l col) = map h l.
Proof.
  revert col. induction l as [|a l IH]; intros [|b col] Hlen Hg; simpl in *;
    try reflexivity; try discriminate.
  rewrite (Hg a b (or_introl eq_refl)). f_equal.
  apply IH; [lia|]. intros a' b' Ha'. apply Hg. right. exact Ha'.
Qed.

Lemma cell_at_app (j : nat) (r extra : list cell) :
  j < length r -> cell_at j (r ++ extra) = cell_at j r.
Proof.
  intros H. unfold cell_at. apply app_nth1. exact H.
Qed.

Lemma with_column_getitem (df : DataFrame) (c x : string) (col : list cell) (j : nat) :
  Forall (fun r => length r = length (columns df)) (values df) ->
  length col = length (values df) ->
  get_loc x (columns df) = Some j ->
  getitem (with_column df c col) x = getitem df x.
Proof.
  intros Hrect Hlen Hj. unfold getitem, with_column. cbn [columns values].
  rewrite (get_loc_app_l x (columns df) [c] j Hj), Hj. f_equal.
  rewrite map_map. apply map_combine_fst; [exact Hlen|].
  intros r v Hr. cbn [fst snd]. apply cell_at_app.
  rewrite Forall_forall in Hrect. rewrite (Hrect r Hr).
  apply get_loc_lt in Hj. tauto.
Qed.

Lemma with_column_concat_inner (a b : DataFrame) (c : string) (col : list cell) :
  Forall (fun r => length r = length (columns a)) (values a) ->
  length col = length (values a) ->
  ~ In c (columns b) ->
  concat_inner (with_column a c col) b = concat_inner a b.
Proof.
  intros Hrect Hlen Hc. unfold concat_inner, with_column. cbn [columns index values].
  assert (Hcols : filter (fun c' => existsb (String.eqb c') (columns b)) (columns a ++ [c])
                  = filter (fun c' => existsb (String.eqb c') (columns b)) (columns a)).
  { rewrite filter_app. cbn [filter].
    destruct (existsb (String.eqb c) (columns b)) eqn:E; [|apply app_nil_r].
    exfalso. apply Hc. apply existsb_exists in E as [y [Hy E]].
    apply String.eqb_eq in E. subst y. exact Hy. }
  rewrite Hcols. f_equal. f_equal.
  rewrite map_map. apply map_combine_fst; [exact Hlen|].
  intros r v Hr. cbn [fst snd]. apply map_ext_in. intros c' Hc'.
  apply filter_In in Hc' as [Hc' _].
  destruct (get_loc_In c' (columns a) Hc') as [j Hj].
  rewrite (get_loc_app_l c' (columns a) [c] j Hj), Hj.
  apply cell_at_app. rewrite Forall_forall in Hrect. rewrite (Hrect r Hr).
  apply get_loc_lt in Hj. tauto.
Qed.

(** X27: a column that only the first modality has never influences the
    cross-modality scores: adding, to a first table whose rows are as long
    as its header, a column under a new label that the second table does
    not carry leaves the result of both functions unchanged (values and
    errors alike), because the inner join drops it. *)
Theorem modalities_ignore_unshared_column (t : tape) (pos : nat)
  (modality_1_df modality_2_df : DataFrame)
  (modality_1 modality_2 metadata_common metadata_perturbation : string)
  (n_samples : nat) (c : string) (col : list cell) :
  Forall (fun r => length r = length (columns modality_1_df)) (values modality_1_df) ->
  length col = length (values modality_1_df) ->
  ~ In c (columns modality_1_df) ->
  ~ In c (columns modality_2_df) ->
  correlation_between_modalities (with_column modality_1_df c col) modality_2_df
    modality_1 modality_2 metadata_common metadata_perturbation
  = correlation_between_modalities modality_1_df modality_2_df
      modality_1 modality_2 metadata_common metadata_perturbation /\
  null_correlation_between_modalities t pos (with_column modality_1_df c col)
    modality_2_df modality_1 modality_2 metadata_common metadata_perturbation n_samples
  = null_correlation_between_modalities t pos modality_1_df modality_2_df
      modality_1 modality_2 metadata_common metadata_perturbation n_samples.
Proof.
  intros Hrect Hlen _ Hc.
  unfold correlation_between_modalities, null_correlation_between_modalities.
  rewrite (with_column_concat_inner modality_1_df modality_2_df c col Hrect Hlen Hc).
  destruct (get_loc metadata_common (columns modality_1_df)) as [j|] eqn:Hj.
  - rewrite (with_column_getitem modality_1_df c metadata_common col j Hrect Hlen Hj).
    split; reflexivity.
  - assert (H1 : getitem modality_1_df metadata_common = Raise KeyError)
      by (unfold getitem; rewrite Hj; reflexivity).
    rewrite H1. cbn [bind].
    destruct (getitem (with_column modality_1_df c col) metadata_common)
      as [common_1|e] eqn:E.
    + cbn [bind].
      assert (H2 : getitem modality_2_df metadata_common = Raise KeyError).
      { unfold getitem.
        destruct (get_loc metadata_common (columns modality_2_df)) as [k|] eqn:Hk;
          [|reflexivity].
        exfalso. apply Hc.
        unfold getitem, with_column in E. cbn [columns] in E.
        rewrite (get_loc_app_r metadata_common (columns modality_1_df) [c]
                   (get_loc_None _ _ Hj)) in E.
        cbn [get_loc] in E.
        destruct (String.eqb metadata_common c) eqn:Ec; [|discriminate].
        apply String.eqb_eq in Ec. subst c.
        apply get_loc_lt in Hk as [Hlt Hnth]. rewrite <- Hnth. apply nth_In. exact Hlt. }
      rewrite H2. split; reflexivity.
    + unfold getitem in E.
      destruct (get_loc metadata_common (columns (with_column modality_1_df c col)));
        [discriminate|].
      injection E as <-. split; reflexivity.
Qed.

Lemma modalities_ignore_unshared_column_witness :
  Forall (fun r => length r = length (columns compound_profiles))
         (values compound_profiles) /\
  length [Num 7%float; Num 9%float] = length (values compound_profiles) /\
  ~ In "Cells_Texture"%string (columns compound_profiles) /\
  ~ In "Cells_Texture"%string (columns crispr_profiles) /\
  correlation_between_modalities
    (with_column compound_profiles "Cells_Texture" [Num 7%float; Num 9%float])
    crispr_profiles "Compounds" "CRISPR" "Metadata_genes" "Metadata_broad_sample"
  = correlation_between_modalities compound_profiles crispr_profiles
      "Compounds" "CRISPR" "Metadata_genes" "Metadata_broad_sample" /\
  null_correlation_between_modalities constant_tape 0
    (with_column compound_profiles "Cells_Texture" [Num 7%float; Num 9%float])
    crispr_profiles "Compounds" "CRISPR" "Metadata_genes" "Metadata_broad_sample" 3
  = null_correlation_between_modalities constant_tape 0 compound_profiles crispr_profiles
      "Compounds" "CRISPR" "Metadata_genes" "Metadata_broad_sample" 3.
Proof.
  assert (H1 : Forall (fun r => length r = length (columns compound_profiles))
                      (values compound_profiles)) by (repeat constructor).
  assert (H2 : ~ In "Cells_Texture"%string (columns compound_profiles))
    by (simpl; intuition discriminate).
  assert (H3 : ~ In "Cells_Texture"%string (columns crispr_profiles))
    by (simpl; intuition discriminate).
  split; [exact H1|]. split; [reflexivity|]. split; [exact H2|]. split; [exact H3|].
  exact (modalities_ignore_unshared_column constant_tape 0 compound_profiles
           crispr_profiles "Compounds" "CRISPR" "Metadata_genes" "Metadata_broad_sample"
           3 "Cells_Texture" [Num 7%float; Num 9%float] H1 eq_refl H2 H3).
Defined.

(** ** Cross-modality correlation: a modality name no row carries *)

Lemma concat_nil {A : Type} (l : list (list A)) :
  Forall (fun x => x = []) l -> concat l = [].
Proof.
  induction 1 as [|x l Hx _ IH]; simpl; [reflexivity|]. rewrite Hx, IH. reflexivity.
Qed.

Lemma perturbation_pairs_no_rows (a b : DataFrame) (metadata_perturbation : string)
  (j : nat) :
  values a = [] ->
  get_loc metadata_perturbation (columns a) = Some j ->
  perturbation_pairs a b metadata_perturbation = Ok [].
Proof.
  intros Hv Hj. unfold perturbation_pairs, getitem. rewrite Hj, Hv. reflexivity.
Qed.

(** X28: when no row of the joined table carries the first modality name
    in "Metadata_modality" (a misspelt name, say), and the joined table
    has the columns asked for, [correlation_between_modalities] raises
    nothing and returns an empty list, whatever the common groups are. *)
Theorem correlation_between_modalities_unknown_modality
  (modality_1_df modality_2_df : DataFrame)
  (modality_1 modality_2 metadata_common metadata_perturbation : string)
  (jm jc jp : nat) :
  get_loc "Metadata_modality" (columns (concat_inner modality_1_df modality_2_df))
  = Some jm ->
  get_loc metadata_common (columns (concat_inner modality_1_df modality_2_df))
  = Some jc ->
  get_loc metadata_perturbation (columns (concat_inner modality_1_df modality_2_df))
  = Some jp ->
  (forall row, In row (values (concat_inner modality_1_df modality_2_df)) ->
               cell_eqb (cell_at jm row) (Str modality_1) = false) ->
  correlation_between_modalities modality_1_df modality_2_df modality_1 modality_2
    metadata_common metadata_perturbation = Ok [].
Proof.
  intros Hjm Hjc Hjp Hnone.
  assert (Hin : In metadata_common (columns (concat_inner modality_1_df modality_2_df))).
  { apply get_loc_lt in Hjc as [Hlt Hnth]. rewrite <- Hnth. apply nth_In. exact Hlt. }
  unfold concat_inner in Hin. cbn [columns] in Hin.
  apply filter_In in Hin as [Hin1 Hin2].
  apply existsb_exists in Hin2 as [y [Hy Hey]]. apply String.eqb_eq in Hey. subst y.
  destruct (get_loc_In _ _ Hin1) as [j1 Hj1]. destruct (get_loc_In _ _ Hy) as [j2 Hj2].
  unfold correlation_between_modalities, getitem at 1 2. rewrite Hj1, Hj2. cbn [bind].
  unfold query_eq. rewrite Hjm. cbn [bind].
  set (merged := concat_inner modality_1_df modality_2_df) in *.
  assert (Hempty : mask_filter (map (fun r => cell_eqb (cell_at jm r) (Str modality_1))
                                    (values merged)) (values merged) = []).
  { rewrite mask_filter_map. apply filter_none. exact Hnone. }
  rewrite (mapM_ok _ (fun _ => [])).
  - cbn [bind]. f_equal. apply concat_nil. apply Forall_forall.
    intros x Hx. apply in_map_iff in Hx as [g [<- _]]. reflexivity.
  - intros g _. unfold loc_eq, getitem. cbn [loc_mask columns values].
    rewrite Hjc. cbn [bind].
    apply (perturbation_pairs_no_rows _ _ metadata_perturbation jp).
    + unfold loc_mask. cbn [values]. rewrite Hempty.
      match goal with |- mask_filter ?m [] = [] => destruct m; reflexivity end.
    + exact Hjp.
Qed.

Lemma correlation_between_modalities_unknown_modality_witness :
  get_loc "Metadata_modality" (columns (concat_inner compound_profiles crispr_profiles))
  = Some 0 /\
  get_loc "Metadata_genes" (columns (concat_inner compound_profiles crispr_profiles))
  = Some 1 /\
  get_loc "Metadata_broad_sample" (columns (concat_inner compound_profiles crispr_profiles))
  = Some 2 /\
  (forall row, In row (values (concat_inner compound_profiles crispr_profiles)) ->
               cell_eqb (cell_at 0 row) (Str "Compound") = false) /\
  correlation_between_modalities compound_profiles crispr_profiles "Compound" "CRISPR"
    "Metadata_genes" "Metadata_broad_sample" = Ok [].
Proof.
  assert (H : forall row, In row (values (concat_inner compound_profiles crispr_profiles)) ->
                          cell_eqb (cell_at 0 row) (Str "Compound") = false).
  { intros row Hrow. vm_compute in Hrow.
    repeat (destruct Hrow as [<-|Hrow]; [reflexivity|]). destruct Hrow. }
  split; [reflexivity|]. split; [reflexivity|]. split; [reflexivity|].
  split; [exact H|].
  exact (correlation_between_modalities_unknown_modality compound_profiles crispr_profiles
           "Compound" "CRISPR" "Metadata_genes" "Metadata_broad_sample" 0 1 2
           eq_refl eq_refl eq_refl H).
Defined.
